(** * capita_library_search: the scraping pipeline, embedded and verified

    A shallow embedding of [src/capita_library_search.py]: the HTTP fetcher
    ([simple_get], [is_good_response]), the three record classes and the
    constructor [CapitaSearch.__init__] with its helper
    [getBranchResultItem].

    Conventions.
    - A Python [str] (and a [bytes] body) is a Rocq [string]; its characters
      are read as the code points U+0000..U+00FF, so [lower] and [strip] are
      Python's restricted to that range.
    - The two libraries the script calls, [requests] and [bs4], are not part
      of the repository.  [requests.get] is a field of the [World] the
      script runs in; the [bs4] query interface is the class [BS4].
    - Printing, HTTP requests and the attributes of the object under
      construction are effects: they live in the [state] threaded by the
      monad [M], which also carries the exceptions the script lets escape. *)

From Stdlib Require Import String Ascii List ZArith Bool Lia DecimalString.
Import ListNotations.
Local Open Scope string_scope.
Local Open Scope Z_scope.

(** ** Python text primitives *)

Definition code (c : ascii) : Z := Z.of_nat (nat_of_ascii c).

Definition chr (z : Z) : ascii := ascii_of_nat (Z.to_nat z).

(** [A-Z], and the capital letters of the Latin-1 supplement
    (U+00C0..U+00DE without the multiplication sign U+00D7). *)
Definition is_cased_upper (c : ascii) : bool :=
  let n := code c in
  ((65 <=? n) && (n <=? 90))
  || ((192 <=? n) && (n <=? 222) && negb (n =? 215)).

Definition lower_char (c : ascii) : ascii :=
  if is_cased_upper c then chr (code c + 32) else c.

(** [str.lower()] *)
Fixpoint lower (s : string) : string :=
  match s with
  | EmptyString => EmptyString
  | String c s' => String (lower_char c) (lower s')
  end.

(** [str.isspace()] on one character. *)
Definition is_space (c : ascii) : bool :=
  let n := code c in
  ((9 <=? n) && (n <=? 13)) || ((28 <=? n) && (n <=? 32))
  || (n =? 133) || (n =? 160).

Fixpoint lstrip (s : string) : string :=
  match s with
  | EmptyString => EmptyString
  | String c s' => if is_space c then lstrip s' else s
  end.

Fixpoint rstrip (s : string) : string :=
  match s with
  | EmptyString => EmptyString
  | String c s' =>
      match rstrip s' with
      | EmptyString => if is_space c then EmptyString else String c EmptyString
      | r => String c r
      end
  end.

(** [str.strip()] *)
Definition strip (s : string) : string := rstrip (lstrip s).

(** [s.startswith(p)] *)
Fixpoint startswith (p s : string) : bool :=
  match p, s with
  | EmptyString, _ => true
  | String a p', String b s' => Ascii.eqb a b && startswith p' s'
  | String _ _, EmptyString => false
  end.

Fixpoint find_from (sub s : string) (i : Z) : Z :=
  if startswith sub s then i
  else match s with
       | EmptyString => -1
       | String _ s' => find_from sub s' (i + 1)
       end.

(** [s.find(sub)]: the lowest index where [sub] occurs, or [-1]. *)
Definition find (s sub : string) : Z := find_from sub s 0.

(** Truth value of a [str] or [bytes] object. *)
Definition nonempty (s : string) : bool :=
  match s with EmptyString => false | String _ _ => true end.

(** ** The pattern [items/([0-9]+)\?] *)

Definition is_digit (c : ascii) : bool :=
  let n := code c in (48 <=? n) && (n <=? 57).

(** The longest run of digits at the head of [s], and what follows it. *)
Fixpoint span_digits (s : string) : string * string :=
  match s with
  | String c s' =>
      if is_digit c
      then let (d, r) := span_digits s' in (String c d, r)
      else (EmptyString, s)
  | EmptyString => (EmptyString, EmptyString)
  end.

Fixpoint drop_prefix (p s : string) : option string :=
  match p, s with
  | EmptyString, _ => Some s
  | String a p', String b s' =>
      if Ascii.eqb a b then drop_prefix p' s' else None
  | String _ _, EmptyString => None
  end.

(** A match of the pattern anchored at the head of [s]; the value is group 1.
    The digits are followed by a [?], which is no digit, so the greedy run
    is the only candidate. *)
Definition match_item_id (s : string) : option string :=
  match drop_prefix "items/" s with
  | Some r =>
      let (d, r') := span_digits r in
      if nonempty d && startswith "?" r' then Some d else None
  | None => None
  end.

(** [re.search(r'items/([0-9]+)\?', s)], reduced to [group(1)] of the
    leftmost match. *)
Fixpoint search_item_id (s : string) : option string :=
  match match_item_id s with
  | Some d => Some d
  | None =>
      match s with
      | EmptyString => None
      | String _ s' => search_item_id s'
      end
  end.

(** [re.compile(r'item-status .*').search(s)]: the dot-star matches the empty
    string, so the pattern is found exactly where the literal prefix is. *)
Definition search_item_status (s : string) : bool :=
  0 <=? find s "item-status ".

(** ** Domain records *)

(** A field that holds an [int] at construction and a [str] later. *)
Inductive pyval : Type :=
| PyInt (z : Z)
| PyStr (s : string).

Module CatalogueItem.

Record t : Type := mk {
  status : string;
  barcode : pyval;
  shelfmark : string;
  item_type : string
}.

(** [CatalogueItem.__init__] *)
Definition init : t := mk "" (PyInt 0) "" "".

Definition is_available (self : t) : bool :=
  String.eqb (lower (status self)) "available".

Definition set_status (v : string) (c : t) : t :=
  mk v (barcode c) (shelfmark c) (item_type c).
Definition set_barcode (v : pyval) (c : t) : t :=
  mk (status c) v (shelfmark c) (item_type c).
Definition set_shelfmark (v : string) (c : t) : t :=
  mk (status c) (barcode c) v (item_type c).
Definition set_item_type (v : string) (c : t) : t :=
  mk (status c) (barcode c) (shelfmark c) v.

End CatalogueItem.

Module BranchResultItem.

Record t : Type := mk {
  name : string;
  items : list CatalogueItem.t
}.

(** [BranchResultItem.__init__] *)
Definition init : t := mk "" [].

Definition set_name (v : string) (b : t) : t := mk v (items b).

Definition add_item (cat_item : CatalogueItem.t) (self : t) : t :=
  mk (name self) (items self ++ [cat_item]).

(** The [for] loop with its early [return True]. *)
Fixpoint any_available (l : list CatalogueItem.t) : bool :=
  match l with
  | [] => false
  | i :: l' => if CatalogueItem.is_available i then true else any_available l'
  end.

Definition is_available (self : t) : bool := any_available (items self).

End BranchResultItem.

Module SearchResultItem.

Record t : Type := mk {
  item_id : string;
  title : string;
  publisher : string;
  link : string;
  summary : string;
  available : string;
  branches : list BranchResultItem.t
}.

(** [SearchResultItem.__init__] *)
Definition init : t :=
  mk "default" "default" "default" "default" "default" "default" [].

Definition set_item_id (v : string) (i : t) : t :=
  mk v (title i) (publisher i) (link i) (summary i) (available i) (branches i).
Definition set_title (v : string) (i : t) : t :=
  mk (item_id i) v (publisher i) (link i) (summary i) (available i) (branches i).
Definition set_publisher (v : string) (i : t) : t :=
  mk (item_id i) (title i) v (link i) (summary i) (available i) (branches i).
Definition set_link (v : string) (i : t) : t :=
  mk (item_id i) (title i) (publisher i) v (summary i) (available i) (branches i).
Definition set_summary (v : string) (i : t) : t :=
  mk (item_id i) (title i) (publisher i) (link i) v (available i) (branches i).
Definition set_available (v : string) (i : t) : t :=
  mk (item_id i) (title i) (publisher i) (link i) (summary i) v (branches i).

Definition add_branch_result (bri : BranchResultItem.t) (self : t) : t :=
  mk (item_id self) (title self) (publisher self) (link self) (summary self)
     (available self) (branches self ++ [bri]).

End SearchResultItem.

(** The search object.  [capita_url] and [default_borough] are its class
    attributes. *)
Module CapitaSearch.

Record t : Type := mk {
  borough_url : string;
  search_url : string;
  items_found : list SearchResultItem.t;
  error_message : string
}.

Definition capita_url : string := "https://capitadiscovery.co.uk/".
Definition default_borough : string := "islington".

Definition set_borough_url (v : string) (o : t) : t :=
  mk v (search_url o) (items_found o) (error_message o).
Definition set_search_url (v : string) (o : t) : t :=
  mk (borough_url o) v (items_found o) (error_message o).
Definition set_items_found (v : list SearchResultItem.t) (o : t) : t :=
  mk (borough_url o) (search_url o) v (error_message o).
Definition set_error_message (v : string) (o : t) : t :=
  mk (borough_url o) (search_url o) (items_found o) v.

End CapitaSearch.

(** ** The environment: [requests] and [bs4] *)

(** What the script reads of a [requests.Response]: [headers] is the
    case-insensitive dictionary, [content] the body. *)
Record response : Type := mkResponse {
  status_code : Z;
  headers : list (string * string);
  content : string
}.

(** What [get(url, stream=True)] and the reading of the body come to: a
    response, or a [RequestException] raised on the way, carrying [str(e)].
    Both places are inside the one [try] of [simple_get]. *)
Inductive reply : Type :=
| Response (resp : response)
| RequestException (e : string).

Record World : Type := mkWorld {
  requests_get : string -> reply
}.

(** The exceptions that are not caught anywhere in the script. *)
Inductive exn : Type :=
| KeyError (key : string)
| TypeError (msg : string).

(** [headers[key]]: keys compare by their lower-case form, and a missing
    key raises [KeyError] with the lower-cased key. *)
Fixpoint headers_getitem (h : list (string * string)) (key : string)
  : exn + string :=
  match h with
  | [] => inl (KeyError (lower key))
  | (k, v) :: h' =>
      if String.eqb (lower k) (lower key) then inr v
      else headers_getitem h' key
  end.

(** An attribute filter of [findAll]: a string, or a compiled pattern given
    by its [search]. *)
Inductive attr_pat : Type :=
| Str (s : string)
| Re (search : string -> bool).

(** The part of [bs4] the script uses, over the library's element type.
    [html_parser markup] is [BeautifulSoup(markup, 'html.parser')] on a
    byte string; [get t key default] is [t.get(key, default)]. *)
Class BS4 : Type := {
  tag : Type;
  html_parser : string -> tag;
  select : tag -> string -> list tag;
  findAll : tag -> string -> string -> attr_pat -> list tag;
  text : tag -> string;
  get : tag -> string -> string -> string
}.

(** ** Effects *)

(** [stdout]: the objects printed so far, oldest first.  [gets]: the URLs
    handed to [requests.get] so far, oldest first.  [self]: the attributes
    of the object under construction. *)
Record state : Type := mkState {
  stdout : list string;
  gets : list string;
  self : CapitaSearch.t
}.

Definition M (A : Type) : Type := state -> (exn + A) * state.

Definition ret {A : Type} (a : A) : M A := fun s => (inr a, s).

Definition bind {A B : Type} (m : M A) (k : A -> M B) : M B :=
  fun s =>
    match m s with
    | (inr a, s') => k a s'
    | (inl e, s') => (inl e, s')
    end.

Definition raise {A : Type} (e : exn) : M A := fun s => (inl e, s).

Definition modify (f : state -> state) : M unit := fun s => (inr tt, f s).

Definition read {A : Type} (f : state -> A) : M A := fun s => (inr (f s), s).

Declare Scope py_scope.
Delimit Scope py_scope with py.
Notation "x <- m ;; k" := (bind m (fun x => k))
  (at level 61, m at next level, right associativity) : py_scope.
Notation "m ;; k" := (bind m (fun _ => k))
  (at level 61, right associativity) : py_scope.
Local Open Scope py_scope.

(** A [for] loop whose body has effects; an exception ends it. *)
Fixpoint for_each {A : Type} (l : list A) (body : A -> M unit) : M unit :=
  match l with
  | [] => ret tt
  | x :: l' => body x ;; for_each l' body
  end.

(** Assignment to an attribute of [self]. *)
Definition assign (f : CapitaSearch.t -> CapitaSearch.t) : M unit :=
  modify (fun s => mkState (stdout s) (gets s) (f (self s))).

Definition log_error (e : string) : M unit :=
  modify (fun s => mkState (stdout s ++ [e]) (gets s) (self s)).

(** ** The HTTP fetcher *)

Definition is_good_response (resp : response) : exn + bool :=
  match headers_getitem (headers resp) "Content-Type" with
  | inl e => inl e
  | inr v =>
      let content_type := lower v in
      inr ((status_code resp =? 200)
           && true (* content_type is not None *)
           && (-1 <? find content_type "html"))
  end.

Section Fetcher.

Variable w : World.

(** The call of [requests.get] is recorded in [gets] before its outcome is
    looked at.  A [KeyError] from [is_good_response] is no
    [RequestException]: it passes the [except] clause. *)
Definition simple_get (url : string) : M (option string) :=
  modify (fun s => mkState (stdout s) (gets s ++ [url]) (self s)) ;;
  match requests_get w url with
  | Response resp =>
      match is_good_response resp with
      | inr true => ret (Some (content resp))
      | inr false => ret None
      | inl e => raise e
      end
  | RequestException e =>
      log_error ("Error during requests to " ++ url ++ " : " ++ e) ;;
      ret None
  end.

End Fetcher.

(** ** The extractor and the constructor *)

(** Truth value of an argument that is a [str] or [None]. *)
Definition truthy (o : option string) : bool :=
  match o with
  | Some s => nonempty s
  | None => false
  end.

(** The string an argument holds; read only where the argument is true. *)
Definition str_of (o : option string) : string :=
  match o with
  | Some s => s
  | None => EmptyString
  end.

(** Truth value of what [simple_get] returned. *)
Definition truthy_body (o : option string) : bool := truthy o.

Definition newline : string := String "010"%char EmptyString.

Definition invalid_query_message : string :=
  "IslingtonSearch: must supply title and/or author" ++ newline.

Section Extractor.

Context {bs4 : BS4}.
Variable w : World.

(** [BeautifulSoup(markup, 'html.parser')].  On [None] the library takes
    [len(markup)] and the [TypeError] of that escapes. *)
Definition BeautifulSoup (markup : option string) : M tag :=
  match markup with
  | Some b => ret (html_parser b)
  | None => raise (TypeError "object of type 'NoneType' has no len()")
  end.

(** Lines 234-251: one table row to one [CatalogueItem]. *)
Definition getCatalogueItem (row : tag) : CatalogueItem.t :=
  let citem := CatalogueItem.init in
  let citem :=
    match findAll row "span" "itemprop" (Str "serialNumber") with
    | prop0 :: _ => CatalogueItem.set_barcode (PyStr (text prop0)) citem
    | [] => citem
    end in
  let citem :=
    match findAll row "span" "itemprop" (Str "sku") with
    | prop0 :: _ => CatalogueItem.set_shelfmark (text prop0) citem
    | [] => citem
    end in
  let citem :=
    match findAll row "td" "class" (Str "loan") with
    | prop0 :: _ => CatalogueItem.set_item_type (text prop0) citem
    | [] => citem
    end in
  match findAll row "td" "class" (Re search_item_status) with
  | prop0 :: _ =>
      let citem := CatalogueItem.set_status (text prop0) citem in
      CatalogueItem.set_status (strip (CatalogueItem.status citem)) citem
  | [] => citem
  end.

(** Lines 233-253: the loop over the rows. *)
Fixpoint add_rows (rows : list tag) (bri : BranchResultItem.t)
  : BranchResultItem.t :=
  match rows with
  | [] => bri
  | row :: rows' =>
      add_rows rows' (BranchResultItem.add_item (getCatalogueItem row) bri)
  end.

Definition getBranchResultItem (branch : tag) : BranchResultItem.t :=
  let bri := BranchResultItem.init in
  match findAll branch "span" "itemprop" (Str "name") with
  | name_span0 :: _ =>
      let bri := BranchResultItem.set_name (text name_span0) bri in
      match select branch "tbody" with
      | tbody0 :: _ => add_rows (select tbody0 "tr") bri
      | [] => bri
      end
  | [] => bri
  end.

(** Lines 173-196: the fields read off the listing page. *)
Definition listing_fields (borough_url : string) (div : tag)
  : SearchResultItem.t :=
  let new_item := SearchResultItem.init in
  let new_item :=
    match select div "h2.title" with
    | h2_0 :: _ =>
        match select h2_0 "a" with
        | a0 :: _ =>
            let new_item :=
              SearchResultItem.set_title (get a0 "title" "NOT FOUND") new_item in
            let temp_link := get a0 "href" "NOT FOUND" in
            match search_item_id temp_link with
            | Some group1 =>
                let new_item := SearchResultItem.set_item_id group1 new_item in
                SearchResultItem.set_link
                  (borough_url ++ "items/" ++ SearchResultItem.item_id new_item)
                  new_item
            | None => new_item
            end
        | [] => new_item
        end
    | [] => new_item
    end in
  let new_item :=
    match select div "div.publisher" with
    | div_pub0 :: _ =>
        match select div_pub0 "span.publisher" with
        | span0 :: _ => SearchResultItem.set_publisher (text span0) new_item
        | [] => new_item
        end
    | [] => new_item
    end in
  match select div "div.summarydetail" with
  | div_summ0 :: _ =>
      match select div_summ0 "span.summarydetail" with
      | span0 :: _ => SearchResultItem.set_summary (text span0) new_item
      | [] => new_item
      end
  | [] => new_item
  end.

(** Lines 214-216: the loop over the branch elements. *)
Fixpoint add_branches (li_branches : list tag) (new_item : SearchResultItem.t)
  : SearchResultItem.t :=
  match li_branches with
  | [] => new_item
  | li_branch :: rest =>
      let bri := getBranchResultItem li_branch in
      add_branches rest (SearchResultItem.add_branch_result bri new_item)
  end.

(** Lines 200-216: the fields read off the detail page. *)
Definition availability_fields (html : tag) (new_item : SearchResultItem.t)
  : SearchResultItem.t :=
  match select html "div#availability" with
  | div_avail0 :: _ =>
      let new_item :=
        match select div_avail0 "div.status" with
        | avail_status0 :: _ =>
            match select avail_status0 "p.branches" with
            | p_branches0 :: _ =>
                SearchResultItem.set_available (text p_branches0) new_item
            | [] => new_item
            end
        | [] => new_item
        end in
      match select div_avail0 "ul.options" with
      | ul_options0 :: _ => add_branches (select ul_options0 "li") new_item
      | [] => new_item
      end
  | [] => new_item
  end.

(** Lines 173-218: the body of the inner loop.  Line 199 calls [simple_get]
    on [new_item.link] whatever it holds and hands the result to
    [BeautifulSoup] unexamined. *)
Definition result_item (div : tag) : M unit :=
  borough_url <- read (fun s => CapitaSearch.borough_url (self s)) ;;
  let new_item := listing_fields borough_url div in
  raw <- simple_get w (SearchResultItem.link new_item) ;;
  html <- BeautifulSoup raw ;;
  let new_item := availability_fields html new_item in
  assign (fun o =>
    CapitaSearch.set_items_found (CapitaSearch.items_found o ++ [new_item]) o).

Definition append_search_url (v : string) : M unit :=
  assign (fun o =>
    CapitaSearch.set_search_url (CapitaSearch.search_url o ++ v) o).

(** Lines 148-158: the namespace URL and the search URL. *)
Definition build_urls (title author borough : option string) : M unit :=
  assign (CapitaSearch.set_borough_url
            (CapitaSearch.capita_url
             ++ (if truthy borough then str_of borough
                 else CapitaSearch.default_borough)
             ++ "/")) ;;
  borough_url <- read (fun s => CapitaSearch.borough_url (self s)) ;;
  assign (CapitaSearch.set_search_url (borough_url ++ "items?query=")) ;;
  (if truthy title
   then append_search_url ("+title%3A%28" ++ str_of title ++ "%29")
   else ret tt) ;;
  (if truthy author
   then if truthy title
        then append_search_url "+AND" ;;
             append_search_url ("+author%3A%28" ++ str_of author ++ "%29") ;;
             append_search_url "#availability"
        else ret tt
   else ret tt).

(** Lines 160-218: the listing page is fetched and its entries extracted.
    The early [return] is the [then] branch. *)
Definition scrape : M unit :=
  search_url <- read (fun s => CapitaSearch.search_url (self s)) ;;
  raw_html <- simple_get w search_url ;;
  if negb (truthy_body raw_html) then
    assign (CapitaSearch.set_error_message "could not get web page")
  else
    html <- BeautifulSoup raw_html ;;
    for_each (select html "div#searchResults") (fun search_results =>
      for_each (select search_results "div.summary") result_item).

(** [CapitaSearch.__init__(self, title, author, borough)].  The early
    [return] of line 146 is the [then] branch. *)
Definition CapitaSearch_init (title author borough : option string) : M unit :=
  assign (CapitaSearch.set_borough_url "") ;;
  assign (CapitaSearch.set_search_url "") ;;
  assign (CapitaSearch.set_items_found []) ;;
  assign (CapitaSearch.set_error_message "") ;;
  if negb (truthy title || truthy author) then
    log_error invalid_query_message
  else
    build_urls title author borough ;;
    scrape.

(** The state a constructor call starts from: nothing printed, nothing
    requested, no attribute set. *)
Definition fresh : state := mkState [] [] (CapitaSearch.mk "" "" [] "").

(** [CapitaSearch(title, author, borough)]: what the call raised, if
    anything, and the state it left. *)
Definition CapitaSearch_call (title author borough : option string)
  : (exn + unit) * state :=
  CapitaSearch_init title author borough fresh.

End Extractor.

(** ** A document tree implementing [BS4]

    Elements with attributes and text leaves, queried the way [bs4] does for
    the selectors the script uses: [select] takes [tag], [tag.class] or
    [tag#id] and returns the matching descendants in document order;
    [findAll] filters the descendants by name and one attribute; the
    [class] attribute is a whitespace-separated list, matched token by token
    and then as a whole. *)
Module Tree.

#[warnings="-register-all"]
Inductive node : Type :=
| Elem (name : string) (attrs : list (string * string)) (children : list node)
| Txt (s : string).

Fixpoint descendants (n : node) : list node :=
  match n with
  | Elem _ _ cs =>
      (fix walk (l : list node) : list node :=
         match l with
         | [] => []
         | c :: l' => c :: descendants c ++ walk l'
         end) cs
  | Txt _ => []
  end.

Fixpoint text (n : node) : string :=
  match n with
  | Elem _ _ cs =>
      (fix walk (l : list node) : string :=
         match l with
         | [] => EmptyString
         | c :: l' => text c ++ walk l'
         end) cs
  | Txt s => s
  end.

Fixpoint lookup (attrs : list (string * string)) (key : string)
  : option string :=
  match attrs with
  | [] => None
  | (k, v) :: attrs' => if String.eqb k key then Some v else lookup attrs' key
  end.

Fixpoint words_from (s cur : string) : list string :=
  match s with
  | EmptyString => if nonempty cur then [cur] else []
  | String c s' =>
      if is_space c
      then (if nonempty cur then cur :: words_from s' EmptyString
            else words_from s' EmptyString)
      else words_from s' (cur ++ String c EmptyString)
  end.

Definition words (s : string) : list string := words_from s EmptyString.

(** A selector cut at its first [.] or [#]. *)
Fixpoint cut (sel : string) : string * option (ascii * string) :=
  match sel with
  | EmptyString => (EmptyString, None)
  | String c sel' =>
      if Ascii.eqb c "."%char || Ascii.eqb c "#"%char
      then (EmptyString, Some (c, sel'))
      else let (t, q) := cut sel' in (String c t, q)
  end.

Definition matches_selector (sel : string) (n : node) : bool :=
  match n with
  | Elem nm attrs _ =>
      let (t, q) := cut sel in
      String.eqb nm t
      && match q with
         | None => true
         | Some (c, v) =>
             if Ascii.eqb c "."%char
             then match lookup attrs "class" with
                  | Some cl => existsb (String.eqb v) (words cl)
                  | None => false
                  end
             else match lookup attrs "id" with
                  | Some i => String.eqb i v
                  | None => false
                  end
         end
  | Txt _ => false
  end.

Definition select (n : node) (sel : string) : list node :=
  filter (matches_selector sel) (descendants n).

Definition matches_pat (p : attr_pat) (v : string) : bool :=
  match p with
  | Str s => String.eqb v s
  | Re search => search v
  end.

Definition matches_attr (key : string) (p : attr_pat) (v : string) : bool :=
  if String.eqb key "class"
  then existsb (matches_pat p) (words v)
       || matches_pat p (String.concat " " (words v))
  else matches_pat p v.

Definition findAll (n : node) (nm key : string) (p : attr_pat) : list node :=
  filter (fun d =>
            match d with
            | Elem nm' attrs _ =>
                String.eqb nm' nm
                && match lookup attrs key with
                   | Some v => matches_attr key p v
                   | None => false
                   end
            | Txt _ => false
            end)
         (descendants n).

Definition get (n : node) (key default : string) : string :=
  match n with
  | Elem _ attrs _ =>
      match lookup attrs key with
      | Some v => v
      | None => default
      end
  | Txt _ => default
  end.

Definition empty_document : node := Elem "[document]" [] [].

(** A parser given by the pages it knows; any other markup is an empty
    document. *)
Fixpoint parser (pages : list (string * node)) (markup : string) : node :=
  match pages with
  | [] => empty_document
  | (m, d) :: pages' => if String.eqb m markup then d else parser pages' markup
  end.

End Tree.

Definition tree_bs4 (pages : list (string * Tree.node)) : BS4 := {|
  tag := Tree.node;
  html_parser := Tree.parser pages;
  select := Tree.select;
  findAll := Tree.findAll;
  text := Tree.text;
  get := Tree.get
|}.

(** ** Concrete pages and worlds *)

Module Pages.

Import Tree.

Fixpoint attrs_html (attrs : list (string * string)) : string :=
  match attrs with
  | [] => EmptyString
  | (k, v) :: attrs' => " " ++ k ++ "='" ++ v ++ "'" ++ attrs_html attrs'
  end.

(** The markup of a tree; the document root contributes no tag of its own. *)
Fixpoint to_html (n : node) : string :=
  match n with
  | Elem nm attrs cs =>
      let inner :=
        (fix walk (l : list node) : string :=
           match l with
           | [] => EmptyString
           | c :: l' => to_html c ++ walk l'
           end) cs in
      if String.eqb nm "[document]" then inner
      else "<" ++ nm ++ attrs_html attrs ++ ">" ++ inner ++ "</" ++ nm ++ ">"
  | Txt s => s
  end.

Definition document (cs : list node) : node := Elem "[document]" [] cs.

(** One entry of a listing page: a heading whose anchor carries the title
    and the link. *)
Definition entry (title href : string) : node :=
  Elem "div" [("class", "summary")]
    [Elem "h2" [("class", "title")]
       [Elem "a" [("title", title); ("href", href)] [Txt title]]].

Definition listing (entries : list node) : node :=
  document [Elem "div" [("id", "searchResults")] entries].

(** One copy in a branch table. *)
Definition copy_row (barcode shelfmark loan status : string) : node :=
  Elem "tr" []
    [Elem "td" [] [Elem "span" [("itemprop", "serialNumber")] [Txt barcode]];
     Elem "td" [] [Elem "span" [("itemprop", "sku")] [Txt shelfmark]];
     Elem "td" [("class", "loan")] [Txt loan];
     Elem "td" [("class", "item-status " ++ lower status)]
       [Txt (" " ++ status ++ " ")]].

(** A row none of whose cells carries what the extractor looks for. *)
Definition bare_row : node := Elem "tr" [] [Elem "td" [] [Txt "-"]].

Definition branch (name : string) (rows : list node) : node :=
  Elem "li" []
    [Elem "span" [("itemprop", "name")] [Txt name];
     Elem "table" [] [Elem "tbody" [] rows]].

(** A branch element without the name span; its table is still there. *)
Definition nameless_branch (rows : list node) : node :=
  Elem "li" [] [Elem "table" [] [Elem "tbody" [] rows]].

Definition detail (synopsis : string) (lis : list node) : node :=
  document
    [Elem "div" [("id", "availability")]
       [Elem "div" [("class", "status")]
          [Elem "p" [("class", "branches")] [Txt synopsis]];
        Elem "ul" [("class", "options")] lis]].

Definition html_headers : list (string * string) :=
  [("Content-Type", "text/html; charset=UTF-8")].

Definition ok (d : node) : reply :=
  Response (mkResponse 200 html_headers (to_html d)).

(** What [requests] says of a URL without a scheme ([MissingSchema], a
    [RequestException]). *)
Definition missing_schema (url : string) : reply :=
  RequestException
    ("Invalid URL '" ++ url ++ "': No scheme supplied. Perhaps you meant https://"
     ++ url ++ "?").

(** A world given by its routes; a URL without a scheme is refused by
    [requests] itself and any other unknown URL finds no server. *)
Fixpoint serve (routes : list (string * reply)) (url : string) : reply :=
  match routes with
  | [] =>
      if startswith "http" (lower url)
      then RequestException "Connection refused"
      else missing_schema url
  | (u, r) :: routes' => if String.eqb u url then r else serve routes' url
  end.

Definition page (d : node) : string * node := (to_html d, d).

(** *** Three results, the second detail page unavailable *)

Definition emma_url : string :=
  "https://capitadiscovery.co.uk/islington/items?query=+title%3A%28emma%29".

Definition emma_listing : node :=
  listing [entry "Emma" "/islington/items/1?query=emma";
           entry "Emma (large print)" "/islington/items/2?query=emma";
           entry "Emma : an annotated edition" "/islington/items/3?query=emma"].

Definition emma_detail_1 : node :=
  detail "Available at Central Library"
    [branch "Central Library" [copy_row "30120001" "F/AUS" "Adult Fiction" "Available"]].

Definition emma_detail_3 : node :=
  detail "Not available"
    [branch "North Library" [copy_row "30120003" "F/AUS" "Adult Fiction" "On loan"]].

Definition emma_world : World :=
  mkWorld (serve
    [(emma_url, ok emma_listing);
     ("https://capitadiscovery.co.uk/islington/items/1", ok emma_detail_1);
     ("https://capitadiscovery.co.uk/islington/items/2",
      Response (mkResponse 503 html_headers "<html>Service Unavailable</html>"));
     ("https://capitadiscovery.co.uk/islington/items/3", ok emma_detail_3)]).

Definition emma_bs4 : BS4 :=
  tree_bs4 [page emma_listing; page emma_detail_1; page emma_detail_3].

(** *** One result whose link carries no numeric id *)

Definition odd_url : string :=
  "https://capitadiscovery.co.uk/islington/items?query=+title%3A%28odd%29".

Definition odd_entry : node :=
  Elem "div" [("class", "summary")]
    [Elem "h2" [("class", "title")]
       [Elem "a" [("title", "Odd"); ("href", "/islington/items/abc?query=odd")]
          [Txt "Odd"]];
     Elem "div" [("class", "publisher")]
       [Elem "span" [("class", "publisher")] [Txt "Penguin"]];
     Elem "div" [("class", "summarydetail")]
       [Elem "span" [("class", "summarydetail")] [Txt "A story."]]].

Definition odd_listing : node := listing [odd_entry].

Definition odd_world : World := mkWorld (serve [(odd_url, ok odd_listing)]).

Definition odd_bs4 : BS4 := tree_bs4 [page odd_listing].

(** *** A response without a [Content-Type] header *)

Definition bare_url : string :=
  "https://capitadiscovery.co.uk/islington/items?query=+title%3A%28bare%29".

Definition bare_response : response :=
  mkResponse 200 [("Server", "nginx")] "<html></html>".

Definition bare_world : World :=
  mkWorld (serve [(bare_url, Response bare_response)]).

(** *** A branch with one catalogued copy and one bare row *)

Definition central_rows : list node :=
  [copy_row "30120001" "F/AUS" "Adult Fiction" "Available"; bare_row].

Definition central_branch : node := branch "Central Library" central_rows.

(** The same rows under a branch element that lacks the name span, and the
    detail page that lists only that branch. *)
Definition anonymous_branch : node := nameless_branch central_rows.

Definition anonymous_detail : node :=
  detail "Available at 1 branch" [anonymous_branch].

(** *** Two results, both detail pages served *)

Definition persuasion_url : string :=
  "https://capitadiscovery.co.uk/islington/items?query=+title%3A%28persuasion%29".

Definition persuasion_listing : node :=
  listing [entry "Persuasion" "/islington/items/11?query=persuasion";
           entry "Persuasion (audio)" "/islington/items/12?query=persuasion"].

Definition persuasion_detail_11 : node :=
  detail "Available at Central Library" [central_branch].

Definition persuasion_detail_12 : node := detail "Not available" [].

Definition persuasion_world : World :=
  mkWorld (serve
    [(persuasion_url, ok persuasion_listing);
     ("https://capitadiscovery.co.uk/islington/items/11",
      ok persuasion_detail_11);
     ("https://capitadiscovery.co.uk/islington/items/12",
      ok persuasion_detail_12)]).

Definition persuasion_bs4 : BS4 :=
  tree_bs4 [page persuasion_listing; page persuasion_detail_11;
            page persuasion_detail_12].

(** The body a world serves at a URL, if it serves one. *)
Definition body_at (w : World) (url : string) : string :=
  match requests_get w url with
  | Response resp => content resp
  | RequestException _ => EmptyString
  end.

(** The body served at the link of a listing entry of the Islington
    namespace. *)
Definition detail_body (w : World) (div : node) : string :=
  body_at w
    (SearchResultItem.link
       (@listing_fields (tree_bs4 [])
          "https://capitadiscovery.co.uk/islington/" div)).

(** *** A listing page that is served empty *)

Definition blank_url : string :=
  "https://capitadiscovery.co.uk/islington/items?query=+title%3A%28blank%29".

Definition blank_world : World :=
  mkWorld (serve [(blank_url, Response (mkResponse 200 html_headers ""))]).

(** *** No server at all *)

Definition dead_world : World := mkWorld (serve []).

Definition plain_bs4 : BS4 := tree_bs4 [].

End Pages.

(** ** Notions used in the statements *)

(** Two characters that are equal or differ only in case. *)
Definition same_letter (a b : ascii) : bool :=
  Ascii.eqb a b
  || (is_cased_upper a && Ascii.eqb (chr (code a + 32)) b)
  || (is_cased_upper b && Ascii.eqb (chr (code b + 32)) a).

(** Case-insensitive equality of two strings, character by character. *)
Fixpoint caseless_eqb (s t : string) : bool :=
  match s, t with
  | EmptyString, EmptyString => true
  | String a s', String b t' => same_letter a b && caseless_eqb s' t'
  | _, _ => false
  end.

(** [sub] occurs somewhere in [s]. *)
Definition occurs (sub s : string) : Prop :=
  exists pre post : string, s = pre ++ sub ++ post.

(** The namespace URL a borough argument stands for. *)
Definition namespace_url (borough : option string) : string :=
  CapitaSearch.capita_url
  ++ (if truthy borough then str_of borough else CapitaSearch.default_borough)
  ++ "/".

Definition title_clause (title : string) : string :=
  "+title%3A%28" ++ title ++ "%29".

Definition author_clause (author : string) : string :=
  "+AND" ++ "+author%3A%28" ++ author ++ "%29".

Definition availability_anchor : string := "#availability".

(** The search URL the three arguments stand for. *)
Definition query_url (title author borough : option string) : string :=
  namespace_url borough ++ "items?query="
  ++ (if truthy title then title_clause (str_of title) else EmptyString)
  ++ (if truthy author && truthy title
      then author_clause (str_of author) ++ availability_anchor
      else EmptyString).

(** A line that [simple_get] prints when the request raised. *)
Definition is_request_error (line : string) : bool :=
  startswith "Error during requests to " line.

(** The value of a computation that does not depend on the state it runs
    in. *)
Definition returns {A : Type} (m : M A) (r : exn + A) : Prop :=
  forall s : state, fst (m s) = r.

(** [P] holds after [m] whenever it holds before, whether [m] returns or
    raises. *)
Definition keeps {A : Type} (P : state -> Prop) (m : M A) : Prop :=
  forall s : state, P s -> P (snd (m s)).

(** The two URLs are [u] and [v], and nothing was printed but request
    errors. *)
Definition settled (u v : string) (s : state) : Prop :=
  CapitaSearch.borough_url (self s) = u
  /\ CapitaSearch.search_url (self s) = v
  /\ Forall (fun line => is_request_error line = true) (stdout s).

(** A row in which none of the four lookups finds anything. *)
Definition bare {bs4 : BS4} (row : tag) : Prop :=
  findAll row "span" "itemprop" (Str "serialNumber") = []
  /\ findAll row "span" "itemprop" (Str "sku") = []
  /\ findAll row "td" "class" (Str "loan") = []
  /\ findAll row "td" "class" (Re search_item_status) = [].

(** All the characters, in code order. *)
Definition all_ascii : list ascii := map ascii_of_nat (seq 0 256).

Definition letters_agree : bool :=
  forallb (fun a =>
    forallb (fun b =>
      Bool.eqb (Ascii.eqb (lower_char a) (lower_char b)) (same_letter a b))
      all_ascii)
    all_ascii.

(** ** Formatting *)

(** [str(n)] of an [int]. *)
Definition str_int (z : Z) : string := NilZero.string_of_int (Z.to_int z).

(** What [format] puts for a field that holds an [int] or a [str]. *)
Definition str_pyval (v : pyval) : string :=
  match v with
  | PyInt z => str_int z
  | PyStr s => s
  end.

(** What [format] puts for an argument that is a [str] or [None]. *)
Definition str_arg (o : option string) : string :=
  match o with
  | Some s => s
  | None => "None"
  end.

Definition dquote : string := String "034"%char EmptyString.

(** [s.split()]: the maximal runs of characters that are no white space. *)
Fixpoint split_from (s cur : string) : list string :=
  match s with
  | EmptyString => if nonempty cur then [cur] else []
  | String c s' =>
      if is_space c
      then (if nonempty cur then cur :: split_from s' EmptyString
            else split_from s' EmptyString)
      else split_from s' (cur ++ String c EmptyString)
  end.

Definition split (s : string) : list string := split_from s EmptyString.

(** [sep.join(parts)] *)
Fixpoint join (sep : string) (parts : list string) : string :=
  match parts with
  | [] => EmptyString
  | [p] => p
  | p :: rest => p ++ sep ++ join sep rest
  end.

(** [CatalogueItem.to_string] *)
Definition CatalogueItem_to_string (self : CatalogueItem.t) : string :=
  "status=" ++ CatalogueItem.status self
  ++ " | barcode=" ++ str_pyval (CatalogueItem.barcode self)
  ++ " | shelfmark=" ++ CatalogueItem.shelfmark self
  ++ " | type=" ++ CatalogueItem.item_type self.

(** The loop of [BranchResultItem.to_string] writing one line per item. *)
Fixpoint write_items (items : list CatalogueItem.t) : string :=
  match items with
  | [] => EmptyString
  | i :: rest => "... " ++ CatalogueItem_to_string i ++ newline ++ write_items rest
  end.

(** [BranchResultItem.to_string] *)
Definition BranchResultItem_to_string (self : BranchResultItem.t) : string :=
  let available :=
    if BranchResultItem.is_available self then " (AVAILABLE)" else "" in
  "BRANCH: " ++ BranchResultItem.name self ++ available ++ newline
  ++ write_items (BranchResultItem.items self).

(** The loop of [SearchResultItem.to_string] over the branches. *)
Fixpoint write_branches (branches : list BranchResultItem.t) : string :=
  match branches with
  | [] => EmptyString
  | b :: rest => BranchResultItem_to_string b ++ write_branches rest
  end.

(** [SearchResultItem.to_string] *)
Definition SearchResultItem_to_string (self : SearchResultItem.t) : string :=
  "ID:        " ++ SearchResultItem.item_id self ++ newline
  ++ "TITLE:     " ++ SearchResultItem.title self ++ newline
  ++ "PUBLISHER: " ++ SearchResultItem.publisher self ++ newline
  ++ "LINK:      " ++ SearchResultItem.link self ++ newline
  ++ "SUMMARY:   " ++ SearchResultItem.summary self ++ newline
  ++ "AVAILABLE: " ++ SearchResultItem.available self ++ newline
  ++ write_branches (SearchResultItem.branches self).

(** ** The drivers *)

(** What can leave a driver: an exception of the constructor, or the
    failure to open the batch file. *)
Inductive driver_exn : Type :=
| Escaped (e : exn)
| FileNotFoundError (filename : string).

Definition D (A : Type) : Type := state -> (driver_exn + A) * state.

Definition dret {A : Type} (a : A) : D A := fun s => (inr a, s).

Definition dbind {A B : Type} (m : D A) (k : A -> D B) : D B :=
  fun s =>
    match m s with
    | (inr a, s') => k a s'
    | (inl e, s') => (inl e, s')
    end.

(** A computation of the constructor's layer run inside a driver. *)
Definition lift {A : Type} (m : M A) : D A :=
  fun s =>
    match m s with
    | (inr a, s') => (inr a, s')
    | (inl e, s') => (inl (Escaped e), s')
    end.

(** [print(line)] *)
Definition print (line : string) : D unit := lift (log_error line).

Declare Scope driver_scope.
Delimit Scope driver_scope with driver.
Notation "x <- m ;; k" := (dbind m (fun x => k))
  (at level 61, m at next level, right associativity) : driver_scope.
Notation "m ;; k" := (dbind m (fun _ => k))
  (at level 61, right associativity) : driver_scope.

(** The local variables of [do_search_from_file]. *)
Record batch : Type := mkBatch {
  b_borough : string;
  b_author : string;
  b_title : string;
  search_results : list CapitaSearch.t
}.

Section Drivers.

Context {bs4 : BS4}.
Variable w : World.

(** [open(filename, 'r')] and the iteration over the file: the lines, each
    with its line end, or no such file. *)
Variable read_lines : string -> option (list string).

(** The module-level names [title], [author] and [borough], bound in the
    [__main__] block before any driver is called; [show_search] reads
    these, not the arguments of the search it shows. *)
Variables g_title g_author g_borough : option string.

Local Open Scope driver_scope.

(** Lines 264-266: the loop of [show_search], with its counter. *)
Fixpoint show_items (items : list SearchResultItem.t) (count : Z) : D unit :=
  match items with
  | [] => dret tt
  | item :: rest =>
      let count := count + 1 in
      print ("ITEM " ++ str_int count ++ ":" ++ newline
             ++ SearchResultItem_to_string item ++ newline) ;;
      show_items rest count
  end.

Definition show_search (search : CapitaSearch.t) : D unit :=
  show_items (CapitaSearch.items_found search) 0 ;;
  print (str_int (Z.of_nat (length (CapitaSearch.items_found search)))
         ++ " ITEMS FOUND") ;;
  print (newline ++ "USING SEARCH URL: " ++ CapitaSearch.search_url search
         ++ newline) ;;
  print ("title = " ++ str_arg g_title) ;;
  print ("author = " ++ str_arg g_author) ;;
  print ("borough = " ++ str_arg g_borough ++ newline) ;;
  if nonempty (CapitaSearch.error_message search)
  then print ("ERROR: " ++ CapitaSearch.error_message search ++ newline)
  else dret tt.

(** [CapitaSearch(title, author, borough)] as an expression: the object
    the constructor leaves. *)
Definition CapitaSearch_new (title author borough : option string)
  : D CapitaSearch.t :=
  lift (bind (CapitaSearch_init w title author borough)
             (fun _ => read self)).

Definition do_search (title author borough : option string)
  : D CapitaSearch.t :=
  print (newline ++ "SEARCHING: title=" ++ dquote ++ str_arg title ++ dquote
         ++ ", author=" ++ dquote ++ str_arg author ++ dquote
         ++ ", borough=" ++ dquote ++ str_arg borough ++ dquote ++ newline) ;;
  search <- CapitaSearch_new title author borough ;;
  show_search search ;;
  dret search.

(** Lines 298-320: the body of the loop over the lines of the file. *)
Definition batch_line (line : string) (b : batch) : D batch :=
  let parts := split line in
  if (1 <? Z.of_nat (length parts))%Z then
    let directive := hd EmptyString parts in
    let content := join " " (tl parts) in
    if String.eqb directive "-b" then
      let b := mkBatch content (b_author b) (b_title b) (search_results b) in
      print ("borough set to " ++ dquote ++ b_borough b ++ dquote) ;;
      dret b
    else if String.eqb directive "-a" then
      let b := mkBatch (b_borough b) content (b_title b) (search_results b) in
      print ("author set to " ++ dquote ++ b_author b ++ dquote) ;;
      dret b
    else if String.eqb directive "-t" then
      let b := mkBatch (b_borough b) (b_author b) content (search_results b) in
      print ("title set to " ++ dquote ++ b_title b ++ dquote) ;;
      search <- CapitaSearch_new (Some (b_title b)) (Some (b_author b))
                  (Some (b_borough b)) ;;
      let b := mkBatch (b_borough b) (b_author b) (b_title b)
                 (search_results b ++ [search]) in
      show_search search ;;
      dret b
    else dret b
  else dret b.

Fixpoint batch_lines (lines : list string) (b : batch) : D batch :=
  match lines with
  | [] => dret b
  | line :: rest => b' <- batch_line line b ;; batch_lines rest b'
  end.

(** [do_search_from_file(filename)].  The first [print] formats a string
    without a placeholder, so the file name does not appear in it. *)
Definition do_search_from_file (filename : string) : D (list CapitaSearch.t) :=
  print (newline ++ "DO SEARCH FROM FILE: " ++ newline) ;;
  let b := mkBatch "" "" "" [] in
  match read_lines filename with
  | Some lines =>
      b' <- batch_lines lines b ;;
      dret (search_results b')
  | None => fun s => (inl (FileNotFoundError filename), s)
  end.

End Drivers.

(** ** Notions used in the further statements *)

Fixpoint all_digits (s : string) : bool :=
  match s with
  | EmptyString => true
  | String c s' => is_digit c && all_digits s'
  end.

(** The first character is white space. *)
Definition head_is_space (s : string) : bool :=
  match s with
  | EmptyString => false
  | String c _ => is_space c
  end.

(** The last character is white space. *)
Fixpoint last_is_space (s : string) : bool :=
  match s with
  | EmptyString => false
  | String c EmptyString => is_space c
  | String _ s' => last_is_space s'
  end.

(** The entries of a listing document in the order the two nested loops
    visit them. *)
Definition summaries {bs4 : BS4} (html : tag) : list tag :=
  flat_map (fun search_results => select search_results "div.summary")
           (select html "div#searchResults").

(** The URLs a search in the namespace [ns] may request for its entries:
    the sentinel, or the detail page of a numeric id. *)
Definition entry_url (ns url : string) : Prop :=
  url = "default"
  \/ exists d, nonempty d = true /\ all_digits d = true
               /\ url = ns ++ "items/" ++ d.

(** No character of [s] is white space. *)
Fixpoint no_space (s : string) : bool :=
  match s with
  | EmptyString => true
  | String c s' => negb (is_space c) && no_space s'
  end.

(** A token: non-empty and free of white space. *)
Definition token (s : string) : Prop :=
  nonempty s = true /\ no_space s = true.

(** A line of the batch file that sets off a search: two tokens or more,
    the first of them [-t]. *)
Definition is_search_line (line : string) : bool :=
  (1 <? Z.of_nat (length (split line)))
  && String.eqb (hd EmptyString (split line)) "-t".

(** A line of the batch file that [do_search_from_file] passes over: fewer
    than two tokens, or a first token that is no directive. *)
Definition is_ignored_line (line : string) : bool :=
  negb (1 <? Z.of_nat (length (split line)))
  || negb (String.eqb (hd EmptyString (split line)) "-b"
           || String.eqb (hd EmptyString (split line)) "-a"
           || String.eqb (hd EmptyString (split line)) "-t").

(** The queries a batch file asks for: one per search line, with the
    title of that line and the author and borough set most recently before
    it (initially empty). *)
Fixpoint planned (lines : list string) (borough author : string)
  : list (string * string * string) :=
  match lines with
  | [] => []
  | line :: rest =>
      let parts := split line in
      let content := join " " (tl parts) in
      if (1 <? Z.of_nat (length parts)) then
        if String.eqb (hd EmptyString parts) "-b"
        then planned rest content author
        else if String.eqb (hd EmptyString parts) "-a"
        then planned rest borough content
        else if String.eqb (hd EmptyString parts) "-t"
        then (content, author, borough) :: planned rest borough author
        else planned rest borough author
      else planned rest borough author
  end.

(** * Theorems *)

(** ** Text *)

Lemma in_all_ascii (a : ascii) : In a all_ascii.
Proof.
  unfold all_ascii.
  rewrite <- (ascii_nat_embedding a).
  apply in_map, in_seq.
  pose proof (nat_ascii_bounded a). lia.
Qed.

Lemma letters_agree_true : letters_agree = true.
Proof. vm_compute. reflexivity. Qed.

Lemma same_letter_lower (a b : ascii) :
  same_letter a b = Ascii.eqb (lower_char a) (lower_char b).
Proof.
  pose proof letters_agree_true as H. unfold letters_agree in H.
  rewrite forallb_forall in H.
  specialize (H a (in_all_ascii a)).
  rewrite forallb_forall in H.
  specialize (H b (in_all_ascii b)).
  apply eqb_prop in H. symmetry. exact H.
Qed.

Lemma caseless_eqb_lower (s t : string) :
  caseless_eqb s t = String.eqb (lower s) (lower t).
Proof.
  revert t. induction s as [|a s IH]; intros [|b t]; simpl; try reflexivity.
  rewrite same_letter_lower, IH. reflexivity.
Qed.

(** ** Records *)

(** C8. [CatalogueItem.is_available] is true exactly when [status] equals
    "available" up to the case of its letters; a copy whose status is the
    empty string, as [__init__] leaves it, is not available. *)
Theorem CatalogueItem_is_available_caseless (c : CatalogueItem.t) :
  (CatalogueItem.is_available c = true
   <-> caseless_eqb (CatalogueItem.status c) "available" = true)
  /\ CatalogueItem.is_available CatalogueItem.init = false
  /\ CatalogueItem.is_available (CatalogueItem.set_status "" c) = false.
Proof.
  split; [| split; reflexivity].
  unfold CatalogueItem.is_available.
  rewrite caseless_eqb_lower. reflexivity.
Qed.

Lemma any_available_exists (l : list CatalogueItem.t) :
  BranchResultItem.any_available l = true
  <-> exists i, In i l /\ CatalogueItem.is_available i = true.
Proof.
  induction l as [|x l IH]; simpl.
  - split; [discriminate | intros [i [[] _]]].
  - destruct (CatalogueItem.is_available x) eqn:E.
    + split; [intros _; exists x; auto | reflexivity].
    + rewrite IH. split.
      * intros [i [Hi Ha]]. exists i. auto.
      * intros [i [[->|Hi] Ha]]; [congruence | exists i; auto].
Qed.

(** C9. [BranchResultItem.is_available] is true exactly when one of the
    branch's items is available; with no items it is false. *)
Theorem BranchResultItem_is_available_any (b : BranchResultItem.t) :
  (BranchResultItem.is_available b = true
   <-> exists i, In i (BranchResultItem.items b)
                 /\ CatalogueItem.is_available i = true)
  /\ BranchResultItem.is_available
       (BranchResultItem.mk (BranchResultItem.name b) []) = false.
Proof.
  split; [apply any_available_exists | reflexivity].
Qed.

(** ** Branch extraction *)

Section BranchExtraction.

Context {bs4 : BS4}.

Lemma add_rows_items (rows : list tag) (bri : BranchResultItem.t) :
  BranchResultItem.items (add_rows rows bri)
  = (BranchResultItem.items bri ++ map getCatalogueItem rows)%list.
Proof.
  revert bri. induction rows as [|row rows IH]; intros bri; simpl.
  - symmetry. apply app_nil_r.
  - rewrite IH. simpl. rewrite <- app_assoc. reflexivity.
Qed.

Lemma add_rows_name (rows : list tag) (bri : BranchResultItem.t) :
  BranchResultItem.name (add_rows rows bri) = BranchResultItem.name bri.
Proof.
  revert bri. induction rows as [|row rows IH]; intros bri; simpl;
    [reflexivity | rewrite IH; reflexivity].
Qed.

Lemma add_branches_branches (lis : list tag) (item : SearchResultItem.t) :
  SearchResultItem.branches (add_branches lis item)
  = (SearchResultItem.branches item ++ map getBranchResultItem lis)%list.
Proof.
  revert item. induction lis as [|li lis IH]; intros item; simpl.
  - symmetry. apply app_nil_r.
  - rewrite IH. simpl. rewrite <- app_assoc. reflexivity.
Qed.

Lemma getCatalogueItem_bare (row : tag) :
  bare row -> getCatalogueItem row = CatalogueItem.mk "" (PyInt 0) "" "".
Proof.
  intros (H1 & H2 & H3 & H4). unfold getCatalogueItem.
  rewrite H1, H2, H3, H4. reflexivity.
Qed.

(** C10. For a branch element with a name span and a table body, the
    items of the extracted branch are the rows of the first table body, one
    item per row and in the rows' order; a row in which every lookup fails
    stands at its place with status '', barcode 0, shelfmark '' and
    item_type ''. *)
Theorem getBranchResultItem_one_item_per_row
  (branch name_span0 tbody0 : tag) (name_spans tbodies : list tag) :
  findAll branch "span" "itemprop" (Str "name") = name_span0 :: name_spans ->
  select branch "tbody" = tbody0 :: tbodies ->
  let rows := select tbody0 "tr" in
  let bri := getBranchResultItem branch in
  BranchResultItem.items bri = map getCatalogueItem rows
  /\ length (BranchResultItem.items bri) = length rows
  /\ forall (k : nat) (row : tag),
       nth_error rows k = Some row -> bare row ->
       nth_error (BranchResultItem.items bri) k
       = Some (CatalogueItem.mk "" (PyInt 0) "" "").
Proof.
  intros Hname Htbody rows bri.
  assert (E : BranchResultItem.items bri = map getCatalogueItem rows).
  { unfold bri, getBranchResultItem. rewrite Hname, Htbody.
    rewrite add_rows_items. reflexivity. }
  split; [exact E | split].
  - rewrite E. apply length_map.
  - intros k row Hk Hbare. rewrite E.
    rewrite nth_error_map, Hk. simpl.
    rewrite (getCatalogueItem_bare row Hbare). reflexivity.
Qed.

(** C3, as the code has it.  Every branch element of the options list
    contributes one [BranchResultItem] to [branches], in document order,
    whether it has a name span or not; for an element without a name span
    that record has the empty name and no items, whatever rows the element
    holds. *)
Theorem nameless_branch_is_appended_empty
  (li_branches : list tag) (new_item : SearchResultItem.t) :
  SearchResultItem.branches (add_branches li_branches new_item)
  = (SearchResultItem.branches new_item
     ++ map getBranchResultItem li_branches)%list
  /\ forall li_branch : tag,
       findAll li_branch "span" "itemprop" (Str "name") = [] ->
       getBranchResultItem li_branch = BranchResultItem.mk "" [].
Proof.
  split; [apply add_branches_branches |].
  intros li H. unfold getBranchResultItem. rewrite H. reflexivity.
Qed.

End BranchExtraction.

(** ** The monad *)

Lemma keeps_ret {A : Type} (P : state -> Prop) (a : A) : keeps P (ret a).
Proof. intros s H. exact H. Qed.

Lemma keeps_raise {A : Type} (P : state -> Prop) (e : exn) :
  keeps P (@raise A e).
Proof. intros s H. exact H. Qed.

Lemma keeps_read {A : Type} (P : state -> Prop) (f : state -> A) :
  keeps P (read f).
Proof. intros s H. exact H. Qed.

Lemma keeps_bind {A B : Type} (P : state -> Prop) (m : M A) (k : A -> M B) :
  keeps P m -> (forall a, keeps P (k a)) -> keeps P (bind m k).
Proof.
  intros Hm Hk s H. unfold bind.
  specialize (Hm s H). destruct (m s) as [[e|a] s']; simpl in *.
  - exact Hm.
  - apply Hk. exact Hm.
Qed.

Lemma keeps_for_each {A : Type} (P : state -> Prop) (l : list A)
  (body : A -> M unit) :
  (forall x, keeps P (body x)) -> keeps P (for_each l body).
Proof.
  intros Hb. induction l as [|x l IH]; simpl.
  - apply keeps_ret.
  - apply keeps_bind; [apply Hb | intros _; exact IH].
Qed.

Lemma append_assoc (a b c : string) : (a ++ b) ++ c = a ++ (b ++ c).
Proof.
  induction a as [|x a IH]; simpl; [reflexivity | rewrite IH; reflexivity].
Qed.

Lemma append_empty (a : string) : a ++ "" = a.
Proof.
  induction a as [|x a IH]; simpl; [reflexivity | rewrite IH; reflexivity].
Qed.

(** ** The fetcher *)

Section FetcherFacts.

Variable w : World.

Lemma simple_get_self (url : string) (s : state) :
  self (snd (simple_get w url s)) = self s.
Proof.
  unfold simple_get, bind, modify, log_error, ret, raise. simpl.
  destruct (requests_get w url) as [resp|e]; simpl; [|reflexivity].
  destruct (is_good_response resp) as [e|[|]]; reflexivity.
Qed.

Lemma simple_get_gets (url : string) (s : state) :
  gets (snd (simple_get w url s)) = (gets s ++ [url])%list.
Proof.
  unfold simple_get, bind, modify, log_error, ret, raise. simpl.
  destruct (requests_get w url) as [resp|e]; simpl; [|reflexivity].
  destruct (is_good_response resp) as [e|[|]]; reflexivity.
Qed.

Lemma simple_get_settled (u v url : string) :
  keeps (settled u v) (simple_get w url).
Proof.
  intros s (Hu & Hv & Hout). unfold settled.
  rewrite simple_get_self. split; [exact Hu | split; [exact Hv |]].
  unfold simple_get, bind, modify, log_error, ret, raise. simpl.
  destruct (requests_get w url) as [resp|e]; simpl.
  - destruct (is_good_response resp) as [e|[|]]; exact Hout.
  - apply Forall_app. split; [exact Hout |].
    constructor; [reflexivity | constructor].
Qed.

(** The value of [simple_get] is a function of the reply alone. *)
Lemma simple_get_value (url : string) (s : state) :
  fst (simple_get w url s)
  = match requests_get w url with
    | Response resp =>
        match is_good_response resp with
        | inr true => inr (Some (content resp))
        | inr false => inr None
        | inl e => inl e
        end
    | RequestException _ => inr None
    end.
Proof.
  unfold simple_get, bind, modify, log_error, ret, raise. simpl.
  destruct (requests_get w url) as [resp|e]; simpl; [|reflexivity].
  destruct (is_good_response resp) as [e|[|]]; reflexivity.
Qed.

End FetcherFacts.

(** ** The constructor *)

Section Constructor.

Context {bs4 : BS4}.
Variable w : World.

Lemma build_urls_run (title author borough : option string) (s : state) :
  build_urls title author borough s
  = (inr tt,
     mkState (stdout s) (gets s)
       (CapitaSearch.mk (namespace_url borough)
          (query_url title author borough)
          (CapitaSearch.items_found (self s))
          (CapitaSearch.error_message (self s)))).
Proof.
  unfold build_urls, query_url, namespace_url, title_clause, author_clause,
    availability_anchor, append_search_url, assign, read, modify, bind, ret.
  destruct (truthy title), (truthy author); simpl;
    repeat rewrite append_assoc; simpl;
    repeat rewrite append_assoc; simpl;
    repeat rewrite append_empty; reflexivity.
Qed.

Lemma BeautifulSoup_keeps (P : state -> Prop) (markup : option string) :
  keeps P (BeautifulSoup markup).
Proof. destruct markup; [apply keeps_ret | apply keeps_raise]. Qed.

Lemma result_item_settled (u v : string) (div : tag) :
  keeps (settled u v) (result_item w div).
Proof.
  unfold result_item.
  apply keeps_bind; [apply keeps_read | intros burl].
  apply keeps_bind; [apply simple_get_settled | intros raw].
  apply keeps_bind; [apply BeautifulSoup_keeps | intros html].
  intros s H. exact H.
Qed.

Lemma scrape_settled (u v : string) : keeps (settled u v) (scrape w).
Proof.
  unfold scrape.
  apply keeps_bind; [apply keeps_read | intros url].
  apply keeps_bind; [apply simple_get_settled | intros raw].
  destruct (negb (truthy_body raw)).
  - intros s H. exact H.
  - apply keeps_bind; [apply BeautifulSoup_keeps | intros html].
    apply keeps_for_each. intros sr.
    apply keeps_for_each. intros div.
    apply result_item_settled.
Qed.

Lemma call_invalid (title author borough : option string) :
  truthy title || truthy author = false ->
  CapitaSearch_call w title author borough
  = (inr tt,
     mkState [invalid_query_message] [] (CapitaSearch.mk "" "" [] "")).
Proof.
  intros H. unfold CapitaSearch_call, CapitaSearch_init, bind, assign, modify.
  simpl. rewrite H. reflexivity.
Qed.

(** A valid query reaches [scrape] with both URLs built and nothing else
    done. *)
Lemma call_valid (title author borough : option string) :
  truthy title || truthy author = true ->
  CapitaSearch_call w title author borough
  = scrape w
      (mkState [] []
         (CapitaSearch.mk (namespace_url borough)
            (query_url title author borough) [] "")).
Proof.
  intros H. unfold CapitaSearch_call, CapitaSearch_init.
  unfold bind at 1 2 3 4. unfold assign, modify. simpl. rewrite H. simpl.
  unfold bind at 1. rewrite build_urls_run. reflexivity.
Qed.

Lemma call_valid_settled (title author borough : option string) :
  truthy title || truthy author = true ->
  settled (namespace_url borough) (query_url title author borough)
    (snd (CapitaSearch_call w title author borough)).
Proof.
  intros H. rewrite (call_valid _ _ _ H).
  apply scrape_settled. repeat split. constructor.
Qed.

Lemma namespace_url_nonempty (borough : option string) :
  nonempty (namespace_url borough) = true.
Proof. reflexivity. Qed.

Lemma query_url_nonempty (title author borough : option string) :
  nonempty (query_url title author borough) = true.
Proof. reflexivity. Qed.

Lemma invalid_query_message_no_request_error :
  is_request_error invalid_query_message = false.
Proof. reflexivity. Qed.

(** C5. The constructor reports the invalid query (it prints the "must
    supply title and/or author" line) exactly when title and author are
    both empty or absent, whatever the borough; then it returns normally
    having printed only that line, requested nothing, and left both URLs
    empty and the result sequence empty. *)
Theorem invalid_query_iff (title author borough : option string) :
  let r := CapitaSearch_call w title author borough in
  (In invalid_query_message (stdout (snd r))
   <-> truthy title = false /\ truthy author = false)
  /\ (truthy title = false -> truthy author = false ->
      fst r = inr tt
      /\ stdout (snd r) = [invalid_query_message]
      /\ gets (snd r) = []
      /\ CapitaSearch.borough_url (self (snd r)) = ""
      /\ CapitaSearch.search_url (self (snd r)) = ""
      /\ CapitaSearch.items_found (self (snd r)) = []).
Proof.
  intros r. subst r. split.
  - destruct (truthy title || truthy author) eqn:E.
    + pose proof (call_valid_settled title author borough E) as (_ & _ & Hout).
      split.
      * intros Hin. rewrite Forall_forall in Hout.
        specialize (Hout _ Hin).
        rewrite invalid_query_message_no_request_error in Hout.
        discriminate.
      * intros [Ht Ha]. rewrite Ht, Ha in E. discriminate.
    + rewrite (call_invalid _ _ _ E). simpl.
      apply orb_false_iff in E. split; [intros _; exact E | auto].
  - intros Ht Ha.
    rewrite call_invalid by (rewrite Ht, Ha; reflexivity).
    simpl. repeat split.
Qed.

(** C6. With a non-empty title and a non-empty author the search URL is
    the namespace URL, [items?query=], the title clause, the author clause
    joined by [+AND], and the availability anchor; with a non-empty title and
    no author it ends after the title clause; with a non-empty author and no
    title it ends after [items?query=], so that neither the author clause
    nor the anchor is appended. *)
Theorem search_url_shape (title author : string) (absent borough : option string) :
  title <> "" -> author <> "" -> truthy absent = false ->
  let search_url_of t a :=
    CapitaSearch.search_url (self (snd (CapitaSearch_call w t a borough))) in
  let borough_url_of t a :=
    CapitaSearch.borough_url (self (snd (CapitaSearch_call w t a borough))) in
  (search_url_of (Some title) (Some author)
   = borough_url_of (Some title) (Some author) ++ "items?query="
     ++ "+title%3A%28" ++ title ++ "%29"
     ++ "+AND" ++ "+author%3A%28" ++ author ++ "%29"
     ++ "#availability")
  /\ (search_url_of (Some title) absent
      = borough_url_of (Some title) absent ++ "items?query="
        ++ "+title%3A%28" ++ title ++ "%29")
  /\ (search_url_of absent (Some author)
      = borough_url_of absent (Some author) ++ "items?query=")
  /\ (borough_url_of (Some title) (Some author) = namespace_url borough
      /\ borough_url_of (Some title) absent = namespace_url borough
      /\ borough_url_of absent (Some author) = namespace_url borough).
Proof.
  intros Ht Ha Habs search_url_of borough_url_of.
  assert (Tt : truthy (Some title) = true)
    by (destruct title; [contradiction | reflexivity]).
  assert (Ta : truthy (Some author) = true)
    by (destruct author; [contradiction | reflexivity]).
  assert (V1 : truthy (Some title) || truthy (Some author) = true)
    by (rewrite Tt; reflexivity).
  assert (V2 : truthy (Some title) || truthy absent = true)
    by (rewrite Tt; reflexivity).
  assert (V3 : truthy absent || truthy (Some author) = true)
    by (rewrite Ta; apply orb_true_r).
  destruct (call_valid_settled _ _ borough V1) as (B1 & U1 & _).
  destruct (call_valid_settled _ _ borough V2) as (B2 & U2 & _).
  destruct (call_valid_settled _ _ borough V3) as (B3 & U3 & _).
  unfold search_url_of, borough_url_of.
  rewrite B1, B2, B3, U1, U2, U3.
  unfold query_url, title_clause, author_clause, availability_anchor.
  rewrite Tt, Ta, Habs. simpl str_of. cbv [andb].
  repeat rewrite append_assoc. repeat rewrite append_empty.
  repeat split; reflexivity.
Qed.

(** When the fetch of the listing page yields no document, [scrape] sets
    the error message and returns. *)
Lemma scrape_absent (s : state) :
  returns (simple_get w (CapitaSearch.search_url (self s))) (inr None) ->
  scrape w s
  = (inr tt,
     let s' := snd (simple_get w (CapitaSearch.search_url (self s)) s) in
     mkState (stdout s') (gets s')
       (CapitaSearch.set_error_message "could not get web page" (self s))).
Proof.
  intros Hfail. unfold scrape, bind, read.
  pose proof (Hfail s) as Hval.
  pose proof (simple_get_self w (CapitaSearch.search_url (self s)) s) as Hself.
  destruct (simple_get w (CapitaSearch.search_url (self s)) s) as [v s2].
  simpl in Hval, Hself. subst v. simpl.
  unfold assign, modify. rewrite Hself. reflexivity.
Qed.

(** C7. For a valid query whose listing-page fetch yields no document, the
    constructor returns normally with the error message "could not get web
    page", no result items, and the namespace URL and the search URL both
    set. *)
Theorem listing_fetch_failure (title author borough : option string) :
  truthy title || truthy author = true ->
  returns (simple_get w (query_url title author borough)) (inr None) ->
  let r := CapitaSearch_call w title author borough in
  fst r = inr tt
  /\ CapitaSearch.error_message (self (snd r)) = "could not get web page"
  /\ CapitaSearch.items_found (self (snd r)) = []
  /\ CapitaSearch.borough_url (self (snd r)) = namespace_url borough
  /\ CapitaSearch.search_url (self (snd r)) = query_url title author borough
  /\ nonempty (CapitaSearch.borough_url (self (snd r))) = true
  /\ nonempty (CapitaSearch.search_url (self (snd r))) = true.
Proof.
  intros Hv Hfail r. subst r.
  rewrite (call_valid _ _ _ Hv).
  rewrite scrape_absent by exact Hfail.
  simpl. repeat split.
Qed.

End Constructor.

(** ** [find] and occurrence *)

Lemma startswith_iff (p s : string) :
  startswith p s = true <-> exists post, s = p ++ post.
Proof.
  revert s. induction p as [|a p IH]; intros s; simpl.
  - split; [intros _; exists s; reflexivity | reflexivity].
  - destruct s as [|b s].
    + split; [discriminate | intros [post H]; discriminate].
    + rewrite andb_true_iff, Ascii.eqb_eq, IH. split.
      * intros [-> [post ->]]. exists post. reflexivity.
      * intros [post H]. injection H as -> ->. split; [reflexivity | eauto].
Qed.

Lemma find_from_occurs (sub s : string) (i : Z) :
  0 <= i -> (-1 < find_from sub s i <-> occurs sub s).
Proof.
  revert i. induction s as [|c s IH]; intros i Hi; simpl.
  - destruct (startswith sub "") eqn:E.
    + split; [intros _ | lia].
      apply startswith_iff in E. destruct E as [post E].
      exists "", post. exact E.
    + split; [lia |]. intros (pre & post & H).
      destruct pre; [| discriminate]. simpl in H.
      assert (startswith sub "" = true)
        by (apply startswith_iff; exists post; exact H).
      congruence.
  - destruct (startswith sub (String c s)) eqn:E.
    + split; [intros _ | lia].
      apply startswith_iff in E. destruct E as [post E].
      exists "", post. exact E.
    + rewrite IH by lia. split.
      * intros (pre & post & ->). exists (String c pre), post. reflexivity.
      * intros (pre & post & H). destruct pre as [|c' pre]; simpl in H.
        -- assert (startswith sub (String c s) = true)
             by (apply startswith_iff; exists post; exact H).
           congruence.
        -- injection H as _ ->. exists pre, post. reflexivity.
Qed.

Lemma find_occurs (s sub : string) : -1 < find s sub <-> occurs sub s.
Proof. apply find_from_occurs. lia. Qed.

(** ** The fetcher, with and without a content type *)

(** Where the response has a [Content-Type] header, [simple_get] returns:
    the body exactly when the status is 200 and the lower-cased header
    value contains "html", and [None] otherwise.  A request that raised
    gives [None] as well. *)
Lemma simple_get_with_content_type (w : World) (url : string) (s : state) :
  match requests_get w url with
  | RequestException _ => fst (simple_get w url s) = inr None
  | Response resp =>
      forall content_type : string,
        headers_getitem (headers resp) "Content-Type" = inr content_type ->
        (status_code resp = 200 /\ occurs "html" (lower content_type) ->
         fst (simple_get w url s) = inr (Some (content resp)))
        /\ (~ (status_code resp = 200 /\ occurs "html" (lower content_type)) ->
            fst (simple_get w url s) = inr None)
  end.
Proof.
  rewrite simple_get_value.
  destruct (requests_get w url) as [resp|e]; [| reflexivity].
  intros ct Hct. unfold is_good_response. rewrite Hct.
  pose proof (find_occurs (lower ct) "html") as Hocc.
  pose proof (Z.eqb_spec (status_code resp) 200) as Hs.
  pose proof (Z.ltb_spec (-1) (find (lower ct) "html")) as Hf.
  destruct Hs as [Hs|Hs], Hf as [Hf|Hf]; cbn [andb]; split;
    try (intros _; reflexivity).
  - intros N. exfalso. apply N. split; [exact Hs | apply Hocc; exact Hf].
  - intros [_ Ho]. apply Hocc in Ho. lia.
  - intros [Hs' _]. contradiction.
  - intros [Hs' _]. contradiction.
Qed.

(** Without the header the [KeyError] of the lookup escapes, whatever the
    status. *)
Lemma simple_get_without_content_type (w : World) (url : string)
  (resp : response) (key : string) (s : state) :
  requests_get w url = Response resp ->
  headers_getitem (headers resp) "Content-Type" = inl (KeyError key) ->
  fst (simple_get w url s) = inl (KeyError key).
Proof.
  intros Hr Hk. rewrite simple_get_value, Hr.
  unfold is_good_response. rewrite Hk. reflexivity.
Qed.

(** C4, at the failing input.  A 200 response that carries no
    [Content-Type] header makes [simple_get] raise [KeyError] to its
    caller instead of returning [None]; the constructor that called it for
    the listing page raises with it. *)
Theorem simple_get_raises_without_content_type :
  headers_getitem (headers Pages.bare_response) "Content-Type"
  = inl (KeyError "content-type")
  /\ simple_get Pages.bare_world Pages.bare_url fresh
     = (inl (KeyError "content-type"),
        mkState [] [Pages.bare_url] (CapitaSearch.mk "" "" [] ""))
  /\ fst (@CapitaSearch_call Pages.plain_bs4 Pages.bare_world
            (Some "bare") None None)
     = inl (KeyError "content-type").
Proof. repeat split. Qed.

(** ** The detail page of one result *)

Section DetailPage.

Context {bs4 : BS4}.
Variable w : World.

(** An entry whose anchor yields no numeric id keeps the sentinels for
    [item_id] and [link]; its title is still taken from the anchor. *)
Lemma listing_fields_without_id (borough_url : string)
  (div h2_0 a0 : tag) (h2s anchors : list tag) :
  select div "h2.title" = h2_0 :: h2s ->
  select h2_0 "a" = a0 :: anchors ->
  search_item_id (get a0 "href" "NOT FOUND") = None ->
  let new_item := listing_fields borough_url div in
  SearchResultItem.item_id new_item = "default"
  /\ SearchResultItem.link new_item = "default"
  /\ SearchResultItem.title new_item = get a0 "title" "NOT FOUND"
  /\ SearchResultItem.available new_item = "default"
  /\ SearchResultItem.branches new_item = [].
Proof.
  intros Hh Ha Hid. unfold listing_fields. rewrite Hh, Ha, Hid.
  destruct (select div "div.publisher") as [|dp ?];
    [| destruct (select dp "span.publisher")];
    (destruct (select div "div.summarydetail") as [|ds ?];
     [| destruct (select ds "span.summarydetail")]);
    repeat split.
Qed.

(** Line 199 requests the link of every entry, whatever it holds. *)
Lemma result_item_gets (div : tag) (s : state) :
  gets (snd (result_item w div s))
  = (gets s
     ++ [SearchResultItem.link
           (listing_fields (CapitaSearch.borough_url (self s)) div)])%list.
Proof.
  unfold result_item, bind, read.
  set (url := SearchResultItem.link
                (listing_fields (CapitaSearch.borough_url (self s)) div)).
  pose proof (simple_get_gets w url s) as Hg.
  destruct (simple_get w url s) as [[e|raw] s']; simpl in *; [exact Hg |].
  destruct raw as [b|]; simpl; exact Hg.
Qed.

(** When that request yields no document, [BeautifulSoup] raises and the
    entry is not appended: the exception leaves the loops and the
    constructor. *)
Lemma result_item_absent (div : tag) (s : state) :
  returns
    (simple_get w
       (SearchResultItem.link
          (listing_fields (CapitaSearch.borough_url (self s)) div)))
    (inr None) ->
  fst (result_item w div s)
  = inl (TypeError "object of type 'NoneType' has no len()")
  /\ CapitaSearch.items_found (self (snd (result_item w div s)))
     = CapitaSearch.items_found (self s).
Proof.
  intros Hfail. unfold result_item, bind, read.
  set (url := SearchResultItem.link
                (listing_fields (CapitaSearch.borough_url (self s)) div)) in *.
  pose proof (Hfail s) as Hval.
  pose proof (simple_get_self w url s) as Hself.
  destruct (simple_get w url s) as [v s']. simpl in Hval, Hself. subst v.
  simpl. rewrite Hself. split; reflexivity.
Qed.

Lemma for_each_raises {A : Type} (x : A) (l : list A) (body : A -> M unit)
  (e : exn) (s : state) :
  fst (body x s) = inl e ->
  for_each (x :: l) body s = (inl e, snd (body x s)).
Proof.
  intros H. simpl. unfold bind.
  destruct (body x s) as [[e'|[]] s']; simpl in *; congruence.
Qed.

End DetailPage.

(** C1, at the failing input.  The listing has one entry whose link
    carries no numeric id.  Its [item_id] and [link] keep the sentinel and
    its title, publisher and summary are read, but the constructor then
    requests the URL [default]; [requests] refuses it, [simple_get] prints
    the error and returns [None], [BeautifulSoup] raises [TypeError] on
    it, and the constructor raises with no item recorded. *)
Theorem entry_without_id_is_fetched_and_aborts :
  @listing_fields Pages.odd_bs4 "https://capitadiscovery.co.uk/islington/"
     Pages.odd_entry
  = SearchResultItem.mk "default" "Odd" "Penguin" "default" "A story."
      "default" []
  /\ @CapitaSearch_call Pages.odd_bs4 Pages.odd_world (Some "odd") None None
     = (inl (TypeError "object of type 'NoneType' has no len()"),
        mkState
          ["Error during requests to default : Invalid URL 'default': No scheme supplied. Perhaps you meant https://default?"]
          [Pages.odd_url; "default"]
          (CapitaSearch.mk "https://capitadiscovery.co.uk/islington/"
             Pages.odd_url [] "")).
Proof. split; vm_compute; reflexivity. Qed.

(** C2, at the failing input.  Three entries with ids 1, 2 and 3; the
    detail page of the second answers 503.  The first entry is extracted
    in full, the request for the second yields [None], [BeautifulSoup]
    raises [TypeError] on it and the constructor raises: the third detail
    page is never requested and no result set is returned. *)
Theorem failed_detail_fetch_aborts_search :
  let r := @CapitaSearch_call Pages.emma_bs4 Pages.emma_world
             (Some "emma") None None in
  fst r = inl (TypeError "object of type 'NoneType' has no len()")
  /\ gets (snd r)
     = [Pages.emma_url;
        "https://capitadiscovery.co.uk/islington/items/1";
        "https://capitadiscovery.co.uk/islington/items/2"]
  /\ map SearchResultItem.item_id (CapitaSearch.items_found (self (snd r)))
     = ["1"]
  /\ fst (simple_get Pages.emma_world
            "https://capitadiscovery.co.uk/islington/items/2" fresh)
     = inr None.
Proof. repeat split; vm_compute; reflexivity. Qed.

(** C3, refuted as stated.  The detail page lists one branch element
    that has no name span: a [BranchResultItem] with the empty name and no
    items is appended for it. *)
Lemma nameless_branch_counterexample :
  @findAll Pages.plain_bs4 Pages.anonymous_branch "span" "itemprop" (Str "name")
  = []
  /\ SearchResultItem.branches
       (@availability_fields Pages.plain_bs4 Pages.anonymous_detail
          SearchResultItem.init)
     = [BranchResultItem.mk "" []]
  /\ SearchResultItem.branches
       (@availability_fields Pages.plain_bs4 Pages.anonymous_detail
          SearchResultItem.init)
     <> SearchResultItem.branches SearchResultItem.init.
Proof.
  split; [reflexivity | split].
  - vm_compute. reflexivity.
  - vm_compute. discriminate.
Qed.

(** ** The theorems at concrete inputs *)

(** C10 at a branch with one catalogued copy and one bare row. *)
Lemma getBranchResultItem_one_item_per_row_witness :
  length
    (BranchResultItem.items
       (@getBranchResultItem Pages.plain_bs4 Pages.central_branch))
  = 2%nat
  /\ nth_error
       (BranchResultItem.items
          (@getBranchResultItem Pages.plain_bs4 Pages.central_branch)) 1
     = Some (CatalogueItem.mk "" (PyInt 0) "" "").
Proof.
  destruct (@getBranchResultItem_one_item_per_row Pages.plain_bs4
              Pages.central_branch
              (Tree.Elem "span" [("itemprop", "name")]
                 [Tree.Txt "Central Library"])
              (Tree.Elem "tbody" [] Pages.central_rows)
              [] [] eq_refl eq_refl) as (_ & L & B).
  split.
  - exact L.
  - apply (B 1%nat Pages.bare_row); [reflexivity | repeat split].
Defined.

(** C3 as amended, at the branch element without a name span. *)
Lemma nameless_branch_is_appended_empty_witness :
  @getBranchResultItem Pages.plain_bs4 Pages.anonymous_branch
  = BranchResultItem.mk "" [].
Proof.
  apply (proj2 (@nameless_branch_is_appended_empty Pages.plain_bs4
                  [Pages.anonymous_branch] SearchResultItem.init)).
  reflexivity.
Defined.

(** C5 at an empty title and an absent author. *)
Lemma invalid_query_iff_witness :
  let r := @CapitaSearch_call Pages.plain_bs4 Pages.dead_world
             (Some "") None (Some "islington") in
  fst r = inr tt
  /\ stdout (snd r) = [invalid_query_message]
  /\ gets (snd r) = []
  /\ CapitaSearch.borough_url (self (snd r)) = ""
  /\ CapitaSearch.search_url (self (snd r)) = ""
  /\ CapitaSearch.items_found (self (snd r)) = [].
Proof.
  apply (proj2 (@invalid_query_iff Pages.plain_bs4 Pages.dead_world
                  (Some "") None (Some "islington")));
    reflexivity.
Defined.

(** C6 at the title "diary of a nobody" and the author "grossmith". *)
Lemma search_url_shape_witness :
  CapitaSearch.search_url
    (self (snd (@CapitaSearch_call Pages.plain_bs4 Pages.dead_world
                  (Some "diary of a nobody") (Some "grossmith")
                  (Some "islington"))))
  = "https://capitadiscovery.co.uk/islington/items?query=+title%3A%28diary of a nobody%29+AND+author%3A%28grossmith%29#availability"
  /\ CapitaSearch.search_url
       (self (snd (@CapitaSearch_call Pages.plain_bs4 Pages.dead_world
                     None (Some "grossmith") (Some "islington"))))
     = "https://capitadiscovery.co.uk/islington/items?query=".
Proof.
  destruct (@search_url_shape Pages.plain_bs4 Pages.dead_world
              "diary of a nobody" "grossmith" None (Some "islington")
              ltac:(discriminate) ltac:(discriminate) eq_refl)
    as (H1 & _ & H3 & _).
  split; [exact H1 | exact H3].
Defined.

(** C7 in a world where no server answers. *)
Lemma listing_fetch_failure_witness :
  let r := @CapitaSearch_call Pages.plain_bs4 Pages.dead_world
             (Some "x") (Some "y") (Some "camden") in
  fst r = inr tt
  /\ CapitaSearch.error_message (self (snd r)) = "could not get web page"
  /\ CapitaSearch.items_found (self (snd r)) = []
  /\ CapitaSearch.borough_url (self (snd r))
     = "https://capitadiscovery.co.uk/camden/"
  /\ CapitaSearch.search_url (self (snd r))
     = "https://capitadiscovery.co.uk/camden/items?query=+title%3A%28x%29+AND+author%3A%28y%29#availability".
Proof.
  destruct (@listing_fetch_failure Pages.plain_bs4 Pages.dead_world
              (Some "x") (Some "y") (Some "camden") eq_refl
              (fun s => eq_refl))
    as (H1 & H2 & H3 & H4 & H5 & _).
  split; [exact H1 |].
  split; [exact H2 |].
  split; [exact H3 |].
  split; [exact H4 | exact H5].
Defined.

(** * Further properties *)

(** ** The item id *)

Lemma span_digits_spec (s : string) :
  all_digits (fst (span_digits s)) = true
  /\ s = fst (span_digits s) ++ snd (span_digits s).
Proof.
  induction s as [|c s [IHd IHs]]; simpl; [split; reflexivity |].
  destruct (is_digit c) eqn:E.
  - destruct (span_digits s) as [d r]. simpl in *. rewrite E, IHd.
    split; [reflexivity | rewrite <- IHs; reflexivity].
  - split; reflexivity.
Qed.

Lemma span_digits_stop (d rest : string) (c : ascii) :
  all_digits d = true -> is_digit c = false ->
  span_digits (d ++ String c rest) = (d, String c rest).
Proof.
  intros Hd Hc. induction d as [|x d IH]; simpl.
  - rewrite Hc. reflexivity.
  - simpl in Hd. apply andb_true_iff in Hd. destruct Hd as [Hx Hd].
    rewrite Hx, (IH Hd). reflexivity.
Qed.

Lemma drop_prefix_spec (p s r : string) :
  drop_prefix p s = Some r <-> s = p ++ r.
Proof.
  revert s. induction p as [|a p IH]; intros s; simpl.
  - split; [intros H; injection H as ->; reflexivity | intros ->; reflexivity].
  - destruct s as [|b s]; [split; discriminate |].
    destruct (Ascii.eqb_spec a b) as [->|N].
    + rewrite IH. split; [intros ->; reflexivity | intros H; injection H; auto].
    + split; [discriminate | intros H; injection H; intros; congruence].
Qed.

Lemma match_item_id_spec (s d : string) :
  match_item_id s = Some d <->
  nonempty d = true /\ all_digits d = true
  /\ exists post, s = "items/" ++ d ++ "?" ++ post.
Proof.
  unfold match_item_id. split.
  - destruct (drop_prefix "items/" s) as [r|] eqn:E; [| discriminate].
    apply drop_prefix_spec in E.
    destruct (span_digits_spec r) as [Hd Hr].
    destruct (span_digits r) as [d' r']. simpl in Hd, Hr.
    destruct (nonempty d') eqn:En; [| discriminate].
    destruct (startswith "?" r') eqn:Eq; [| discriminate].
    simpl. intros H. injection H as <-.
    apply startswith_iff in Eq. destruct Eq as [post ->].
    repeat split; [exact En | exact Hd |].
    exists post. rewrite E, Hr. reflexivity.
  - intros (Hn & Hd & post & ->).
    assert (E : drop_prefix "items/" ("items/" ++ d ++ "?" ++ post)
                = Some (d ++ "?" ++ post))
      by (apply drop_prefix_spec; reflexivity).
    rewrite E. simpl append.
    rewrite (span_digits_stop d post "?"%char Hd eq_refl).
    rewrite Hn. reflexivity.
Qed.

Lemma search_item_id_cons (c : ascii) (s : string) :
  search_item_id (String c s)
  = match match_item_id (String c s) with
    | Some d => Some d
    | None => search_item_id s
    end.
Proof. reflexivity. Qed.

Lemma search_item_id_sound (s d : string) :
  search_item_id s = Some d ->
  nonempty d = true /\ all_digits d = true
  /\ occurs ("items/" ++ d ++ "?") s.
Proof.
  induction s as [|c s IH].
  - discriminate.
  - rewrite search_item_id_cons.
    destruct (match_item_id (String c s)) as [d'|] eqn:E.
    + intros H. injection H as ->.
      apply match_item_id_spec in E. destruct E as (Hn & Hd & post & E).
      repeat split; [exact Hn | exact Hd |].
      exists "", post. rewrite E. simpl. rewrite append_assoc. reflexivity.
    + intros H. destruct (IH H) as (Hn & Hd & pre & post & ->).
      repeat split; [exact Hn | exact Hd |].
      exists (String c pre), post. reflexivity.
Qed.

Lemma search_item_id_complete (s d : string) :
  nonempty d = true -> all_digits d = true ->
  occurs ("items/" ++ d ++ "?") s ->
  search_item_id s <> None.
Proof.
  intros Hn Hd (pre & post & ->).
  induction pre as [|c pre IH].
  - assert (E : match_item_id ("" ++ ("items/" ++ d ++ "?") ++ post) = Some d).
    { apply match_item_id_spec. repeat split; [exact Hn | exact Hd |].
      exists post. simpl. rewrite append_assoc. reflexivity. }
    change ("" ++ ("items/" ++ d ++ "?") ++ post)
      with (String "i" ("tems/" ++ d ++ "?") ++ post) in *.
    change (String "i" ("tems/" ++ d ++ "?") ++ post)
      with (String "i" (("tems/" ++ d ++ "?") ++ post)) in *.
    rewrite search_item_id_cons, E. discriminate.
  - change (String c pre ++ ("items/" ++ d ++ "?") ++ post)
      with (String c (pre ++ ("items/" ++ d ++ "?") ++ post)).
    rewrite search_item_id_cons.
    destruct (match_item_id (String c (pre ++ ("items/" ++ d ++ "?") ++ post)));
      [discriminate | exact IH].
Qed.

(** X1. An href yields an item id exactly when it contains [items/], one
    or more decimal digits and a question mark in a row; the id it yields
    is a non-empty string of decimal digits that occurs so in the href. *)
Theorem search_item_id_iff (href : string) :
  (search_item_id href <> None
   <-> exists d, nonempty d = true /\ all_digits d = true
                 /\ occurs ("items/" ++ d ++ "?") href)
  /\ forall d, search_item_id href = Some d ->
       nonempty d = true /\ all_digits d = true
       /\ occurs ("items/" ++ d ++ "?") href.
Proof.
  split; [| apply search_item_id_sound].
  split.
  - destruct (search_item_id href) as [d|] eqn:E; [| congruence].
    intros _. exists d. apply search_item_id_sound. exact E.
  - intros (d & Hn & Hd & Ho). apply (search_item_id_complete _ d); assumption.
Qed.

(** ** Trimming *)

Lemma lstrip_head (s : string) : head_is_space (lstrip s) = false.
Proof.
  induction s as [|c s IH]; simpl; [reflexivity |].
  destruct (is_space c) eqn:E; [exact IH | simpl; exact E].
Qed.

Lemma rstrip_last (s : string) : last_is_space (rstrip s) = false.
Proof.
  induction s as [|c s IH]; simpl; [reflexivity |].
  destruct (rstrip s) as [|x r] eqn:E.
  - destruct (is_space c) eqn:Ec; simpl; [reflexivity | exact Ec].
  - exact IH.
Qed.

Lemma rstrip_head (s : string) :
  head_is_space s = false -> head_is_space (rstrip s) = false.
Proof.
  destruct s as [|c s]; simpl; [reflexivity |]. intros Hc.
  destruct (rstrip s); [rewrite Hc; exact Hc | exact Hc].
Qed.

Lemma strip_trimmed (s : string) :
  head_is_space (strip s) = false /\ last_is_space (strip s) = false.
Proof.
  unfold strip. split; [apply rstrip_head, lstrip_head | apply rstrip_last].
Qed.

(** ** The extracted records *)

Section ExtractedRecords.

Context {bs4 : BS4}.

(** X2. Whatever the entry looks like, the item read off the listing
    page either keeps the sentinel in both [item_id] and [link], or has a
    non-empty all-digit [item_id] and the link [borough_url + 'items/' +
    item_id]; its [available] and [branches] are still the defaults. *)
Theorem listing_fields_id_and_link (borough_url : string) (div : tag) :
  let new_item := listing_fields borough_url div in
  ((SearchResultItem.item_id new_item = "default"
    /\ SearchResultItem.link new_item = "default")
   \/ (nonempty (SearchResultItem.item_id new_item) = true
       /\ all_digits (SearchResultItem.item_id new_item) = true
       /\ SearchResultItem.link new_item
          = borough_url ++ "items/" ++ SearchResultItem.item_id new_item))
  /\ SearchResultItem.available new_item = "default"
  /\ SearchResultItem.branches new_item = [].
Proof.
  unfold listing_fields.
  destruct (select div "h2.title") as [|h2_0 ?];
    [| destruct (select h2_0 "a") as [|a0 ?];
       [| destruct (search_item_id (get a0 "href" "NOT FOUND")) as [d|] eqn:E ]];
    (destruct (select div "div.publisher") as [|dp ?];
     [| destruct (select dp "span.publisher")]);
    (destruct (select div "div.summarydetail") as [|ds ?];
     [| destruct (select ds "span.summarydetail")]);
    simpl; (split; [| split; reflexivity]);
    try (left; split; reflexivity);
    right; destruct (search_item_id_sound _ _ E) as (Hn & Hd & _);
    (split; [exact Hn | split; [exact Hd | reflexivity]]).
Qed.

(** X3. The status of an extracted copy never starts or ends with white
    space, whatever the status cell holds. *)
Theorem getCatalogueItem_status_trimmed (row : tag) :
  head_is_space (CatalogueItem.status (getCatalogueItem row)) = false
  /\ last_is_space (CatalogueItem.status (getCatalogueItem row)) = false.
Proof.
  unfold getCatalogueItem.
  destruct (findAll row "span" "itemprop" (Str "serialNumber"));
    destruct (findAll row "span" "itemprop" (Str "sku"));
    destruct (findAll row "td" "class" (Str "loan"));
    destruct (findAll row "td" "class" (Re search_item_status));
    simpl; try (split; reflexivity); apply strip_trimmed.
Qed.

Lemma add_branches_frame (lis : list tag) (item : SearchResultItem.t) :
  SearchResultItem.item_id (add_branches lis item) = SearchResultItem.item_id item
  /\ SearchResultItem.title (add_branches lis item) = SearchResultItem.title item
  /\ SearchResultItem.publisher (add_branches lis item)
     = SearchResultItem.publisher item
  /\ SearchResultItem.link (add_branches lis item) = SearchResultItem.link item
  /\ SearchResultItem.summary (add_branches lis item)
     = SearchResultItem.summary item
  /\ SearchResultItem.available (add_branches lis item)
     = SearchResultItem.available item.
Proof.
  revert item. induction lis as [|li lis IH]; intros item; simpl.
  - repeat split.
  - destruct (IH (SearchResultItem.add_branch_result
                    (getBranchResultItem li) item))
      as (H1 & H2 & H3 & H4 & H5 & H6).
    rewrite H1, H2, H3, H4, H5, H6. repeat split.
Qed.

(** X4. Reading the detail page never touches what was read off the
    listing page: [item_id], [title], [publisher], [link] and [summary] are
    unchanged, and the branches already present are kept as a prefix. *)
Theorem availability_fields_frame (html : tag) (new_item : SearchResultItem.t) :
  let item := availability_fields html new_item in
  SearchResultItem.item_id item = SearchResultItem.item_id new_item
  /\ SearchResultItem.title item = SearchResultItem.title new_item
  /\ SearchResultItem.publisher item = SearchResultItem.publisher new_item
  /\ SearchResultItem.link item = SearchResultItem.link new_item
  /\ SearchResultItem.summary item = SearchResultItem.summary new_item
  /\ exists added,
       SearchResultItem.branches item
       = (SearchResultItem.branches new_item ++ added)%list.
Proof.
  unfold availability_fields.
  destruct (select html "div#availability") as [|da ?].
  - repeat split. exists []. symmetry. apply app_nil_r.
  - set (item1 := match select da "div.status" with
                  | [] => new_item
                  | s0 :: _ =>
                      match select s0 "p.branches" with
                      | [] => new_item
                      | p0 :: _ =>
                          SearchResultItem.set_available (text p0) new_item
                      end
                  end).
    assert (F : SearchResultItem.item_id item1 = SearchResultItem.item_id new_item
                /\ SearchResultItem.title item1 = SearchResultItem.title new_item
                /\ SearchResultItem.publisher item1
                   = SearchResultItem.publisher new_item
                /\ SearchResultItem.link item1 = SearchResultItem.link new_item
                /\ SearchResultItem.summary item1
                   = SearchResultItem.summary new_item
                /\ SearchResultItem.branches item1
                   = SearchResultItem.branches new_item).
    { unfold item1. destruct (select da "div.status") as [|s0 ?];
        [| destruct (select s0 "p.branches")]; repeat split. }
    destruct F as (F1 & F2 & F3 & F4 & F5 & F6).
    destruct (select da "ul.options") as [|ul ?]; simpl.
    + rewrite F1, F2, F3, F4, F5, F6. repeat split.
      exists []. symmetry. apply app_nil_r.
    + destruct (add_branches_frame (select ul "li") item1)
        as (H1 & H2 & H3 & H4 & H5 & _).
      rewrite H1, H2, H3, H4, H5, F1, F2, F3, F4, F5.
      repeat split. rewrite add_branches_branches, F6. eauto.
Qed.

End ExtractedRecords.

Lemma any_available_app (l1 l2 : list CatalogueItem.t) :
  BranchResultItem.any_available (l1 ++ l2)
  = BranchResultItem.any_available l1 || BranchResultItem.any_available l2.
Proof.
  induction l1 as [|x l1 IH]; simpl; [reflexivity |].
  destruct (CatalogueItem.is_available x); [reflexivity | exact IH].
Qed.

(** X5. Adding a copy to a branch makes the branch available exactly
    when it was available before or the copy is. *)
Theorem add_item_is_available (c : CatalogueItem.t) (b : BranchResultItem.t) :
  BranchResultItem.is_available (BranchResultItem.add_item c b)
  = BranchResultItem.is_available b || CatalogueItem.is_available c.
Proof.
  unfold BranchResultItem.is_available, BranchResultItem.add_item. simpl.
  rewrite any_available_app. simpl.
  destruct (CatalogueItem.is_available c); reflexivity.
Qed.

(** X1 at the link of a real listing entry. *)
Lemma search_item_id_iff_witness :
  search_item_id "/islington/items/427318?query=emma" = Some "427318"
  /\ all_digits "427318" = true
  /\ occurs ("items/" ++ "427318" ++ "?") "/islington/items/427318?query=emma".
Proof.
  split; [reflexivity |].
  destruct (proj2 (search_item_id_iff "/islington/items/427318?query=emma")
              "427318" eq_refl) as (_ & Hd & Ho).
  split; [exact Hd | exact Ho].
Defined.

(** ** The loops of the constructor *)

Lemma for_each_app {A : Type} (l1 l2 : list A) (body : A -> M unit)
  (s : state) :
  for_each (l1 ++ l2) body s
  = bind (for_each l1 body) (fun _ => for_each l2 body) s.
Proof.
  revert s. induction l1 as [|x l1 IH]; intros s; simpl.
  - reflexivity.
  - unfold bind. destruct (body x s) as [[e|[]] s'].
    + reflexivity.
    + rewrite IH. unfold bind. reflexivity.
Qed.

Lemma for_each_flat_map {A B : Type} (f : A -> list B) (l : list A)
  (body : B -> M unit) (s : state) :
  for_each l (fun x => for_each (f x) body) s
  = for_each (flat_map f l) body s.
Proof.
  revert s. induction l as [|x l IH]; intros s; simpl.
  - reflexivity.
  - rewrite for_each_app. unfold bind.
    destruct (for_each (f x) body s) as [[e|[]] s']; [reflexivity | apply IH].
Qed.

Lemma simple_get_some (w : World) (url body : string) (s : state) :
  fst (simple_get w url s) = inr (Some body) ->
  simple_get w url s
  = (inr (Some body), mkState (stdout s) (gets s ++ [url]) (self s)).
Proof.
  unfold simple_get, bind, modify, log_error, ret, raise. simpl.
  destruct (requests_get w url) as [resp|e]; simpl; [| discriminate].
  destruct (is_good_response resp) as [e|[|]]; simpl; try discriminate.
  intros H. injection H as ->. reflexivity.
Qed.

Section Loops.

Context {bs4 : BS4}.
Variable w : World.

Lemma result_item_success (div : tag) (body : string) (s : state) :
  let new_item := listing_fields (CapitaSearch.borough_url (self s)) div in
  returns (simple_get w (SearchResultItem.link new_item)) (inr (Some body)) ->
  result_item w div s
  = (inr tt,
     mkState (stdout s)
       (gets s ++ [SearchResultItem.link new_item])
       (CapitaSearch.set_items_found
          (CapitaSearch.items_found (self s)
           ++ [availability_fields (html_parser body) new_item])
          (self s))).
Proof.
  intros new_item Hok. unfold result_item, bind, read. fold new_item.
  rewrite (simple_get_some w _ body s (Hok s)). reflexivity.
Qed.

Lemma entries_all_fetched (detail_of : tag -> string) (divs : list tag)
  (out reqs : list string) (ns url err : string)
  (found : list SearchResultItem.t) :
  (forall div, In div divs ->
     returns (simple_get w (SearchResultItem.link (listing_fields ns div)))
             (inr (Some (detail_of div)))) ->
  for_each divs (result_item w)
    (mkState out reqs (CapitaSearch.mk ns url found err))
  = (inr tt,
     mkState out
       (reqs ++ map (fun div => SearchResultItem.link (listing_fields ns div))
                    divs)
       (CapitaSearch.mk ns url
          (found
           ++ map (fun div =>
                     availability_fields (html_parser (detail_of div))
                       (listing_fields ns div)) divs)
          err)).
Proof.
  revert reqs found. induction divs as [|div divs IH]; intros reqs found Hok.
  - simpl. rewrite !app_nil_r. reflexivity.
  - simpl for_each. unfold bind.
    rewrite (result_item_success div (detail_of div)) by (apply Hok; left; reflexivity).
    simpl. unfold CapitaSearch.set_items_found. simpl.
    rewrite IH by (intros d Hd; apply Hok; right; exact Hd).
    simpl. rewrite <- !app_assoc. reflexivity.
Qed.

(** The state in which [scrape] enters its loops once the listing page
    has arrived. *)
Lemma scrape_fetched (listing : string) (s : state) :
  returns (simple_get w (CapitaSearch.search_url (self s)))
          (inr (Some listing)) ->
  nonempty listing = true ->
  scrape w s
  = for_each (summaries (html_parser listing)) (result_item w)
      (mkState (stdout s) (gets s ++ [CapitaSearch.search_url (self s)])
         (self s)).
Proof.
  intros Hok Hne. unfold scrape, bind, read.
  rewrite (simple_get_some w _ listing s (Hok s)).
  unfold truthy_body, truthy. rewrite Hne. simpl.
  unfold summaries. rewrite <- for_each_flat_map. reflexivity.
Qed.

(** X6. A valid query whose listing page and whose every entry's detail
    page are fetched returns normally with exactly one item per entry,
    in document order, each built from its entry and its own detail page;
    nothing is printed, no error message is set, and the requests made are
    the search URL followed by the entries' links in order. *)
Theorem search_returns_one_item_per_entry
  (title author borough : option string) (listing : string)
  (detail_of : tag -> string) :
  truthy title || truthy author = true ->
  returns (simple_get w (query_url title author borough))
          (inr (Some listing)) ->
  nonempty listing = true ->
  (forall div, In div (summaries (html_parser listing)) ->
     returns
       (simple_get w
          (SearchResultItem.link (listing_fields (namespace_url borough) div)))
       (inr (Some (detail_of div)))) ->
  CapitaSearch_call w title author borough
  = (inr tt,
     mkState []
       (query_url title author borough
        :: map (fun div =>
                  SearchResultItem.link
                    (listing_fields (namespace_url borough) div))
               (summaries (html_parser listing)))
       (CapitaSearch.mk (namespace_url borough)
          (query_url title author borough)
          (map (fun div =>
                  availability_fields (html_parser (detail_of div))
                    (listing_fields (namespace_url borough) div))
               (summaries (html_parser listing)))
          "")).
Proof.
  intros Hv Hlist Hne Hdet.
  rewrite (call_valid w _ _ _ Hv).
  rewrite (scrape_fetched listing) by assumption.
  simpl. rewrite (entries_all_fetched detail_of) by exact Hdet.
  reflexivity.
Qed.

End Loops.

Section LoopFailure.

Context {bs4 : BS4}.
Variable w : World.

(** X7. A valid query whose listing page arrives, whose first entries'
    detail pages arrive, and whose next entry's detail request yields no
    document, raises [TypeError]: the items of the entries before it are
    all that was recorded, the failing link is the last request made, and
    no later entry is requested. *)
Theorem search_raises_at_first_absent_detail
  (title author borough : option string) (listing : string)
  (detail_of : tag -> string) (before after : list tag) (div : tag) :
  truthy title || truthy author = true ->
  returns (simple_get w (query_url title author borough))
          (inr (Some listing)) ->
  nonempty listing = true ->
  summaries (html_parser listing) = (before ++ div :: after)%list ->
  (forall d, In d before ->
     returns
       (simple_get w
          (SearchResultItem.link (listing_fields (namespace_url borough) d)))
       (inr (Some (detail_of d)))) ->
  returns
    (simple_get w
       (SearchResultItem.link (listing_fields (namespace_url borough) div)))
    (inr None) ->
  let r := CapitaSearch_call w title author borough in
  fst r = inl (TypeError "object of type 'NoneType' has no len()")
  /\ CapitaSearch.items_found (self (snd r))
     = map (fun d =>
              availability_fields (html_parser (detail_of d))
                (listing_fields (namespace_url borough) d))
           before
  /\ gets (snd r)
     = (query_url title author borough
        :: map (fun d =>
                  SearchResultItem.link
                    (listing_fields (namespace_url borough) d))
               before
        ++ [SearchResultItem.link
              (listing_fields (namespace_url borough) div)])%list.
Proof.
  intros Hv Hlist Hne Hdivs Hbefore Hdiv r.
  pose (ns := namespace_url borough).
  pose (url := query_url title author borough).
  pose (s1 := mkState []
                (url :: map (fun d => SearchResultItem.link (listing_fields ns d))
                            before)
                (CapitaSearch.mk ns url
                   (map (fun d =>
                           availability_fields (html_parser (detail_of d))
                             (listing_fields ns d)) before)
                   "")).
  assert (E : r = for_each (div :: after) (result_item w) s1).
  { unfold r. rewrite (call_valid w _ _ _ Hv).
    rewrite (scrape_fetched w listing) by assumption.
    rewrite Hdivs, for_each_app. unfold bind.
    cbn [self stdout gets CapitaSearch.search_url].
    rewrite (entries_all_fetched w detail_of) by exact Hbefore.
    reflexivity. }
  destruct (result_item_absent w div s1 Hdiv) as [Hexn Hitems].
  rewrite (for_each_raises div after (result_item w) _ s1 Hexn) in E.
  rewrite E. cbn [fst snd].
  split; [reflexivity |]. split.
  - rewrite Hitems. reflexivity.
  - rewrite result_item_gets. reflexivity.
Qed.

(** X8. When the request for the listing page lets an exception escape
    from [simple_get], the constructor raises the same exception; by then
    both URLs are set, the one request has been made, and no item and no
    error message is recorded. *)
Theorem search_raises_what_the_listing_fetch_raises
  (title author borough : option string) (e : exn) :
  truthy title || truthy author = true ->
  returns (simple_get w (query_url title author borough)) (inl e) ->
  let r := CapitaSearch_call w title author borough in
  fst r = inl e
  /\ gets (snd r) = [query_url title author borough]
  /\ self (snd r)
     = CapitaSearch.mk (namespace_url borough)
         (query_url title author borough) [] "".
Proof.
  intros Hv Hraise r. subst r.
  rewrite (call_valid w _ _ _ Hv).
  unfold scrape, bind, read. simpl CapitaSearch.search_url.
  set (s1 := mkState _ _ _).
  pose proof (Hraise s1) as Hval.
  pose proof (simple_get_self w (query_url title author borough) s1) as Hself.
  pose proof (simple_get_gets w (query_url title author borough) s1) as Hgets.
  destruct (simple_get w (query_url title author borough) s1) as [v s2].
  simpl in Hval, Hself, Hgets. subst v. simpl.
  split; [reflexivity | split; assumption].
Qed.

(** X9. A listing response that is good but has an empty body is treated
    like a failed fetch: the constructor returns normally with the error
    message "could not get web page" and no items, and parses nothing. *)
Theorem empty_listing_body_is_a_failure
  (title author borough : option string) :
  truthy title || truthy author = true ->
  returns (simple_get w (query_url title author borough)) (inr (Some "")) ->
  CapitaSearch_call w title author borough
  = (inr tt,
     mkState [] [query_url title author borough]
       (CapitaSearch.mk (namespace_url borough)
          (query_url title author borough) [] "could not get web page")).
Proof.
  intros Hv Hempty.
  rewrite (call_valid w _ _ _ Hv).
  unfold scrape, bind, read. simpl CapitaSearch.search_url.
  rewrite (simple_get_some w _ "" _ (Hempty _)). reflexivity.
Qed.

End LoopFailure.

(** ** What the constructor never does *)

Section Never.

Context {bs4 : BS4}.
Variable w : World.

Lemma result_item_error_message (div : tag) :
  keeps (fun s => CapitaSearch.error_message (self s) = "") (result_item w div).
Proof.
  unfold result_item.
  apply keeps_bind; [apply keeps_read | intros burl].
  apply keeps_bind; [| intros raw].
  { intros s H. rewrite simple_get_self. exact H. }
  apply keeps_bind; [apply BeautifulSoup_keeps | intros html].
  intros s H. exact H.
Qed.

(** X10. Whatever the arguments and the network, the error message the
    constructor leaves is either empty or "could not get web page", and in
    the second case the constructor returned normally with no items. *)
Theorem error_message_is_empty_or_could_not_get
  (title author borough : option string) :
  let r := CapitaSearch_call w title author borough in
  CapitaSearch.error_message (self (snd r)) = ""
  \/ (CapitaSearch.error_message (self (snd r)) = "could not get web page"
      /\ fst r = inr tt
      /\ CapitaSearch.items_found (self (snd r)) = []).
Proof.
  intros r. subst r.
  destruct (truthy title || truthy author) eqn:Hv.
  2: { left. rewrite (call_invalid w _ _ _ Hv). reflexivity. }
  rewrite (call_valid w _ _ _ Hv).
  set (s1 := mkState _ _ _).
  unfold scrape, bind, read.
  pose proof (simple_get_self w (CapitaSearch.search_url (self s1)) s1) as Hself.
  destruct (simple_get w (CapitaSearch.search_url (self s1)) s1) as [[e|raw] s2];
    simpl in Hself.
  - left. simpl. rewrite Hself. reflexivity.
  - destruct (negb (truthy_body raw)).
    + right. simpl. rewrite Hself. repeat split.
    + left. destruct raw as [b|]; simpl.
      * apply (keeps_for_each
                 (fun s => CapitaSearch.error_message (self s) = "")).
        -- intros sr. apply keeps_for_each. apply result_item_error_message.
        -- rewrite Hself. reflexivity.
      * rewrite Hself. reflexivity.
Qed.

Lemma result_item_borough_url (div : tag) (s : state) :
  CapitaSearch.borough_url (self (snd (result_item w div s)))
  = CapitaSearch.borough_url (self s).
Proof.
  unfold result_item, bind, read.
  pose proof (simple_get_self w
                (SearchResultItem.link
                   (listing_fields (CapitaSearch.borough_url (self s)) div)) s)
    as Hself.
  destruct (simple_get w _ s) as [[e|raw] s']; simpl in *.
  - rewrite Hself. reflexivity.
  - destruct raw as [b|]; simpl; rewrite Hself; reflexivity.
Qed.

Lemma listing_fields_entry_url (ns : string) (div : tag) :
  entry_url ns (SearchResultItem.link (listing_fields ns div)).
Proof.
  destruct (listing_fields_id_and_link ns div) as [[[_ H]|(Hn & Hd & H)] _].
  - left. exact H.
  - right. eauto.
Qed.

Lemma result_item_entry_urls (ns url : string) (div : tag) :
  keeps (fun s => CapitaSearch.borough_url (self s) = ns
                  /\ exists rest, gets s = url :: rest
                                  /\ Forall (entry_url ns) rest)
        (result_item w div).
Proof.
  intros s (Hns & rest & Hg & Hall). split.
  - rewrite result_item_borough_url. exact Hns.
  - rewrite result_item_gets, Hg, Hns.
    exists (rest ++ [SearchResultItem.link (listing_fields ns div)])%list.
    split; [reflexivity |].
    apply Forall_app. split; [exact Hall |].
    constructor; [apply listing_fields_entry_url | constructor].
Qed.

(** X11. The constructor requests nothing but its own search URL, first,
    and then only the sentinel [default] or detail pages
    [borough_url + 'items/' + digits] of its own namespace; an invalid query
    requests nothing. *)
Theorem requests_stay_in_the_namespace
  (title author borough : option string) :
  let r := CapitaSearch_call w title author borough in
  gets (snd r) = []
  \/ exists rest,
       gets (snd r) = query_url title author borough :: rest
       /\ Forall (entry_url (namespace_url borough)) rest.
Proof.
  intros r. subst r.
  destruct (truthy title || truthy author) eqn:Hv.
  2: { left. rewrite (call_invalid w _ _ _ Hv). reflexivity. }
  right. rewrite (call_valid w _ _ _ Hv).
  set (s1 := mkState _ _ _).
  unfold scrape, bind, read.
  pose proof (simple_get_self w (CapitaSearch.search_url (self s1)) s1) as Hself.
  pose proof (simple_get_gets w (CapitaSearch.search_url (self s1)) s1) as Hgets.
  destruct (simple_get w (CapitaSearch.search_url (self s1)) s1) as [[e|raw] s2];
    simpl in Hself, Hgets.
  - exists []. split; [exact Hgets | constructor].
  - assert (Q : CapitaSearch.borough_url (self s2) = namespace_url borough
                /\ exists rest,
                     gets s2 = query_url title author borough :: rest
                     /\ Forall (entry_url (namespace_url borough)) rest).
    { split; [rewrite Hself; reflexivity |].
      exists []. split; [exact Hgets | constructor]. }
    destruct (negb (truthy_body raw)).
    + simpl. exact (proj2 Q).
    + destruct raw as [b|]; simpl; [| exact (proj2 Q)].
      assert (K : keeps
                    (fun s =>
                       CapitaSearch.borough_url (self s) = namespace_url borough
                       /\ exists rest,
                            gets s = query_url title author borough :: rest
                            /\ Forall (entry_url (namespace_url borough)) rest)
                    (for_each (select (html_parser b) "div#searchResults")
                       (fun search_results =>
                          for_each (select search_results "div.summary")
                            (result_item w)))).
      { apply keeps_for_each. intros sr.
        apply keeps_for_each. apply result_item_entry_urls. }
      exact (proj2 (K s2 Q)).
Qed.

End Never.

(** ** The fetcher's effects *)

(** X12. One call of [simple_get] makes exactly one request, for the URL
    it was given, and leaves the search object alone; it prints one line,
    [Error during requests to <url> : <error>], exactly when the request
    raised, and nothing otherwise -- also when it returns [None] for a bad
    status or content type, or lets a [KeyError] escape. *)
Theorem simple_get_effects (w : World) (url : string) (s : state) :
  let s' := snd (simple_get w url s) in
  gets s' = (gets s ++ [url])%list
  /\ self s' = self s
  /\ stdout s'
     = (stdout s
        ++ match requests_get w url with
           | RequestException e =>
               [("Error during requests to " ++ url ++ " : " ++ e)%string]
           | Response _ => []
           end)%list.
Proof.
  intros s'. subst s'.
  split; [apply simple_get_gets | split; [apply simple_get_self |]].
  unfold simple_get, bind, modify, log_error, ret, raise. simpl.
  destruct (requests_get w url) as [resp|e]; simpl; [| reflexivity].
  destruct (is_good_response resp) as [e|[|]]; simpl;
    symmetry; apply app_nil_r.
Qed.

(** X13. For a response that carries a [Content-Type] header,
    [simple_get] never raises: it returns the body when the status is 200
    and the lower-cased header value contains "html", and [None] in every
    other case. *)
Theorem simple_get_body_or_none (w : World) (url : string) (resp : response)
  (content_type : string) (s : state) :
  requests_get w url = Response resp ->
  headers_getitem (headers resp) "Content-Type" = inr content_type ->
  (fst (simple_get w url s) = inr (Some (content resp))
   /\ status_code resp = 200 /\ occurs "html" (lower content_type))
  \/ (fst (simple_get w url s) = inr None
      /\ ~ (status_code resp = 200 /\ occurs "html" (lower content_type))).
Proof.
  intros Hr Hct. rewrite simple_get_value, Hr.
  unfold is_good_response. rewrite Hct.
  pose proof (find_occurs (lower content_type) "html") as Hocc.
  destruct (Z.eqb_spec (status_code resp) 200) as [Hs|Hs];
    destruct (Z.ltb_spec (-1) (find (lower content_type) "html")) as [Hf|Hf];
    cbn [andb].
  - left. split; [reflexivity | split; [exact Hs | apply Hocc; exact Hf]].
  - right. split; [reflexivity |]. intros [_ Ho]. apply Hocc in Ho. lia.
  - right. split; [reflexivity |]. intros [Hs' _]. contradiction.
  - right. split; [reflexivity |]. intros [Hs' _]. contradiction.
Qed.

(** ** The further properties at concrete inputs *)

(** X6 at a listing with two entries whose detail pages are served. *)
Lemma search_returns_one_item_per_entry_witness :
  let r := @CapitaSearch_call Pages.persuasion_bs4 Pages.persuasion_world
             (Some "persuasion") None None in
  fst r = inr tt
  /\ map SearchResultItem.item_id (CapitaSearch.items_found (self (snd r)))
     = ["11"; "12"]
  /\ gets (snd r)
     = [Pages.persuasion_url;
        "https://capitadiscovery.co.uk/islington/items/11";
        "https://capitadiscovery.co.uk/islington/items/12"].
Proof.
  intros r. subst r.
  rewrite (@search_returns_one_item_per_entry Pages.persuasion_bs4
             Pages.persuasion_world (Some "persuasion") None None
             (Pages.to_html Pages.persuasion_listing)
             (Pages.detail_body Pages.persuasion_world)
             eq_refl (fun s => eq_refl) eq_refl).
  - repeat split.
  - intros div [<-|[<-|[]]] s; reflexivity.
Defined.

(** X7 at the listing whose second detail page answers 503. *)
Lemma search_raises_at_first_absent_detail_witness :
  let r := @CapitaSearch_call Pages.emma_bs4 Pages.emma_world
             (Some "emma") None None in
  fst r = inl (TypeError "object of type 'NoneType' has no len()")
  /\ map SearchResultItem.item_id (CapitaSearch.items_found (self (snd r)))
     = ["1"].
Proof.
  intros r. subst r.
  destruct (@search_raises_at_first_absent_detail Pages.emma_bs4
              Pages.emma_world (Some "emma") None None
              (Pages.to_html Pages.emma_listing)
              (Pages.detail_body Pages.emma_world)
              [Pages.entry "Emma" "/islington/items/1?query=emma"]
              [Pages.entry "Emma : an annotated edition"
                 "/islington/items/3?query=emma"]
              (Pages.entry "Emma (large print)" "/islington/items/2?query=emma")
              eq_refl (fun s => eq_refl) eq_refl eq_refl
              (fun d Hd s =>
                 match Hd with
                 | or_introl E => match E with eq_refl => eq_refl end
                 | or_intror F => match F with end
                 end)
              (fun s => eq_refl))
    as (H1 & H2 & _).
  split; [exact H1 | rewrite H2; reflexivity].
Defined.

(** X8 at the response without a content type. *)
Lemma search_raises_what_the_listing_fetch_raises_witness :
  fst (@CapitaSearch_call Pages.plain_bs4 Pages.bare_world
         (Some "bare") None None)
  = inl (KeyError "content-type").
Proof.
  exact (proj1 (@search_raises_what_the_listing_fetch_raises Pages.plain_bs4
                  Pages.bare_world (Some "bare") None None
                  (KeyError "content-type") eq_refl (fun s => eq_refl))).
Defined.

(** X9 at a listing page served with status 200, as HTML, and empty. *)
Lemma empty_listing_body_is_a_failure_witness :
  @CapitaSearch_call Pages.plain_bs4 Pages.blank_world (Some "blank") None None
  = (inr tt,
     mkState [] [Pages.blank_url]
       (CapitaSearch.mk "https://capitadiscovery.co.uk/islington/"
          Pages.blank_url [] "could not get web page")).
Proof.
  exact (@empty_listing_body_is_a_failure Pages.plain_bs4 Pages.blank_world
           (Some "blank") None None eq_refl (fun s => eq_refl)).
Defined.

(** X13 at the detail page that answers 503 with an HTML content type. *)
Lemma simple_get_body_or_none_witness :
  fst (simple_get Pages.emma_world
         "https://capitadiscovery.co.uk/islington/items/2" fresh)
  = inr None.
Proof.
  destruct (simple_get_body_or_none Pages.emma_world
              "https://capitadiscovery.co.uk/islington/items/2"
              (mkResponse 503 Pages.html_headers
                 "<html>Service Unavailable</html>")
              "text/html; charset=UTF-8" fresh eq_refl eq_refl)
    as [(H & _)|(H & _)]; [discriminate H | exact H].
Defined.

(** ** Splitting and joining *)

Lemma no_space_app (a b : string) :
  no_space (a ++ b) = no_space a && no_space b.
Proof.
  induction a as [|c a IH]; simpl; [reflexivity |].
  rewrite IH. apply andb_assoc.
Qed.

Lemma nonempty_app_r (a : string) (c : ascii) :
  nonempty (a ++ String c "") = true.
Proof. destruct a; reflexivity. Qed.

Lemma split_from_tokens (s cur : string) :
  no_space cur = true -> Forall token (split_from s cur).
Proof.
  revert cur. induction s as [|c s IH]; intros cur Hcur; simpl.
  - destruct (nonempty cur) eqn:E; constructor; [split; assumption | constructor].
  - destruct (is_space c) eqn:Ec.
    + destruct (nonempty cur) eqn:E.
      * constructor; [split; assumption | apply IH; reflexivity].
      * apply IH. reflexivity.
    + apply IH. rewrite no_space_app, Hcur. simpl. rewrite Ec. reflexivity.
Qed.

Lemma split_from_word (word rest cur : string) :
  no_space word = true ->
  split_from (word ++ rest) cur = split_from rest (cur ++ word).
Proof.
  revert cur. induction word as [|c word IH]; intros cur Hw; simpl.
  - rewrite append_empty. reflexivity.
  - simpl in Hw. apply andb_true_iff in Hw. destruct Hw as [Hc Hw].
    apply negb_true_iff in Hc. rewrite Hc.
    rewrite IH by exact Hw. rewrite append_assoc. reflexivity.
Qed.

Lemma split_from_space (c : ascii) (rest cur : string) :
  is_space c = true -> nonempty cur = true ->
  split_from (String c rest) cur = cur :: split_from rest "".
Proof. intros Hc Hn. simpl. rewrite Hc, Hn. reflexivity. Qed.

Lemma split_join (parts : list string) :
  Forall token parts -> split (join " " parts) = parts.
Proof.
  unfold split. induction parts as [|p parts IH]; intros H; [reflexivity |].
  inversion H as [|? ? [Hn Hs] Hrest]; subst.
  destruct parts as [|q parts].
  - simpl join. rewrite <- (append_empty p) at 1.
    rewrite split_from_word by exact Hs. simpl. rewrite Hn. reflexivity.
  - change (join " " (p :: q :: parts))
      with (p ++ String " " (join " " (q :: parts))).
    rewrite split_from_word by exact Hs.
    change ("" ++ p) with p.
    rewrite (split_from_space " "%char _ p eq_refl Hn).
    rewrite (IH Hrest). reflexivity.
Qed.

(** X14. The parts [str.split()] gives are tokens (non-empty, free of
    white space), and joining them with single spaces and splitting again
    gives the same parts: the content kept from a batch line is its tokens
    after the first, separated by exactly one space each. *)
Theorem split_join_round_trip (line : string) :
  Forall token (split line)
  /\ split (join " " (split line)) = split line
  /\ split (join " " (tl (split line))) = tl (split line).
Proof.
  assert (H : Forall token (split line))
    by (apply split_from_tokens; reflexivity).
  split; [exact H | split].
  - apply split_join. exact H.
  - apply split_join. destruct (split line); [constructor |].
    inversion H; assumption.
Qed.
